(** * HDLC connection state machine (dlms_cosem/protocol/hdlc/state.py)

    A shallow embedding of [HdlcConnectionState] and of the transition table
    [HDLC_STATE_TRANSITIONS], followed by the properties of [process_frame].

    Python integers are unbounded, so the four sequence numbers are [Z].
    A method of [HdlcConnectionState] mutates [self] and may raise; it is a
    computation in the monad [M], which threads the object (and the module
    logger) and keeps the mutated object when an exception is raised, exactly
    as the Python object outlives a raised [LocalProtocolError]. *)

From Stdlib Require Import ZArith List Bool Lia.
Import ListNotations.
Local Open Scope Z_scope.

(** ** Sentinel states

    [make_sentinel] creates one class per name; sentinels are compared and
    hashed by identity, and there is exactly one object per name, so a closed
    enumeration has the same equality. *)
Inductive State : Set :=
| NOT_CONNECTED
| IDLE
| AWAITING_RESPONSE
| AWAITING_CONNECTION
| SHOULD_SEND_READY_TO_RECEIVE
| AWAITING_DISCONNECT
| CLOSED
| NEED_DATA.

Scheme Equality for State.

(** ** Frames *)

(** Modelled from the spec: the module [dlms_cosem.protocol.hdlc.frames] is
    imported by state.py but is not part of the sources at hand.  The frame
    classes are the seven the transition table names (the spec's closed
    FrameKind catalogue: SetConnection, ConnectionAck, Information,
    SegmentedInformationRequest, SegmentedInformationResponse, Disconnect,
    ReceiveReady, in this order). *)
Inductive FrameType : Set :=
| SetNormalResponseModeFrame
| UnNumberedAcknowledgmentFrame
| InformationFrame
| SegmentedInformationRequestFrame
| SegmentedInformationResponseFrame
| DisconnectFrame
| ReceiveReadyFrame.

Scheme Equality for FrameType.

(** Modelled from the spec: the attributes of an [InformationFrame] instance
    that state.py reads ([frame.response_frame], [frame.send_sequence_number],
    [frame.receive_sequence_number]). *)
Record InformationFields : Set := mkInformation {
  response_frame : bool;
  send_sequence_number : Z;
  receive_sequence_number : Z
}.

(** Modelled from the spec: a decoded frame is an instance of one of the
    seven classes; only an Information frame carries the flag and the two
    sequence numbers. *)
Inductive Frame : Set :=
| SetNormalResponseMode
| UnNumberedAcknowledgment
| Information (fields : InformationFields)
| SegmentedInformationRequest
| SegmentedInformationResponse
| Disconnect
| ReceiveReady.

(** Python's [type(frame)]. *)
Definition type_of (frame : Frame) : FrameType :=
  match frame with
  | SetNormalResponseMode => SetNormalResponseModeFrame
  | UnNumberedAcknowledgment => UnNumberedAcknowledgmentFrame
  | Information _ => InformationFrame
  | SegmentedInformationRequest => SegmentedInformationRequestFrame
  | SegmentedInformationResponse => SegmentedInformationResponseFrame
  | Disconnect => DisconnectFrame
  | ReceiveReady => ReceiveReadyFrame
  end.

(** ** Dictionaries

    The transition table is a dict of dicts built from literals with distinct
    keys; [d[k]] either finds the value or raises [KeyError] ([None]). *)
Definition dict (K V : Type) : Type := list (K * V).

Fixpoint getitem {K V : Type} (eqb : K -> K -> bool) (d : dict K V) (k : K)
  : option V :=
  match d with
  | [] => None
  | (k', v) :: d' => if eqb k' k then Some v else getitem eqb d' k
  end.

Definition HDLC_STATE_TRANSITIONS : dict State (dict FrameType State) :=
  [ (NOT_CONNECTED, [ (SetNormalResponseModeFrame, AWAITING_CONNECTION) ]);
    (AWAITING_CONNECTION, [ (UnNumberedAcknowledgmentFrame, IDLE) ]);
    (IDLE,
      [ (InformationFrame, AWAITING_RESPONSE);
        (SegmentedInformationRequestFrame, AWAITING_RESPONSE);
        (DisconnectFrame, AWAITING_DISCONNECT) ]);
    (AWAITING_RESPONSE,
      [ (InformationFrame, IDLE);
        (SegmentedInformationResponseFrame, SHOULD_SEND_READY_TO_RECEIVE) ]);
    (SHOULD_SEND_READY_TO_RECEIVE, [ (ReceiveReadyFrame, AWAITING_RESPONSE) ]);
    (AWAITING_DISCONNECT, [ (UnNumberedAcknowledgmentFrame, NOT_CONNECTED) ]) ].

(** [HDLC_STATE_TRANSITIONS[state][frame_type]]: a [KeyError] of either
    subscript is [None]. *)
Definition lookup_transition (state : State) (frame_type : FrameType)
  : option State :=
  match getitem State_beq HDLC_STATE_TRANSITIONS state with
  | None => None
  | Some row => getitem FrameType_beq row frame_type
  end.

(** ** The connection object, exceptions and the logger *)

Record HdlcConnectionState : Set := mkHdlcConnectionState {
  current_state : State;
  client_ssn : Z;
  client_rsn : Z;
  server_ssn : Z;
  server_rsn : Z
}.

(** The attrs defaults of the class. *)
Definition default_state : HdlcConnectionState :=
  {| current_state := NOT_CONNECTED;
     client_ssn := 0; client_rsn := 0; server_ssn := 0; server_rsn := 0 |}.

(** The three [raise LocalProtocolError(...)] sites, each with the values its
    message interpolates:
    - "Send Sequence Number {frame ssn} does not correspond with the current
      state of the HDLC connection {state ssn}";
    - "Receive Sequence number {frame rsn} does not correspond with the
      current state of the HDLC connection {state rsn}";
    - "can't handle frame type {frame_type} when state={current_state}". *)
Inductive LocalProtocolError : Set :=
| SendSequenceNumberError (frame_ssn state_ssn : Z)
| ReceiveSequenceNumberError (frame_rsn state_rsn : Z)
| CantHandleFrameType (frame_type : FrameType) (state : State).

(** [LOG.debug(f"HDLC state transitioned from {old_state} to {new_state}")]. *)
Inductive LogRecord : Set :=
| Transitioned (old_state new_state : State).

Record World : Set := mkWorld {
  self : HdlcConnectionState;
  LOG : list LogRecord
}.

Inductive Result (A : Type) : Type :=
| Return (a : A)
| Raise (e : LocalProtocolError).
Arguments Return {A} a.
Arguments Raise {A} e.

Definition M (A : Type) : Type := World -> Result A * World.

Definition ret {A : Type} (a : A) : M A := fun w => (Return a, w).

Definition bind {A B : Type} (m : M A) (k : A -> M B) : M B :=
  fun w =>
    match m w with
    | (Return a, w') => k a w'
    | (Raise e, w') => (Raise e, w')
    end.

Definition raise {A : Type} (e : LocalProtocolError) : M A :=
  fun w => (Raise e, w).

Definition run {A : Type} (m : M A) (w : World) : Result A * World := m w.

Declare Scope py_scope.
Delimit Scope py_scope with py.
Notation "x <- m ;; k" := (bind m (fun x => k))
  (at level 61, m at next level, right associativity) : py_scope.
Notation "m ;; k" := (bind m (fun _ => k))
  (at level 61, right associativity) : py_scope.
Local Open Scope py_scope.

(** Attribute reads and writes on [self]. *)
Definition getattr {A : Type} (field : HdlcConnectionState -> A) : M A :=
  fun w => (Return (field (self w)), w).

Definition setattr (update : HdlcConnectionState -> HdlcConnectionState)
  : M unit :=
  fun w => (Return tt, {| self := update (self w); LOG := LOG w |}).

Definition set_current_state (v : State) (s : HdlcConnectionState) :=
  {| current_state := v;
     client_ssn := client_ssn s; client_rsn := client_rsn s;
     server_ssn := server_ssn s; server_rsn := server_rsn s |}.

Definition set_client_ssn (v : Z) (s : HdlcConnectionState) :=
  {| current_state := current_state s;
     client_ssn := v; client_rsn := client_rsn s;
     server_ssn := server_ssn s; server_rsn := server_rsn s |}.

Definition set_client_rsn (v : Z) (s : HdlcConnectionState) :=
  {| current_state := current_state s;
     client_ssn := client_ssn s; client_rsn := v;
     server_ssn := server_ssn s; server_rsn := server_rsn s |}.

Definition set_server_ssn (v : Z) (s : HdlcConnectionState) :=
  {| current_state := current_state s;
     client_ssn := client_ssn s; client_rsn := client_rsn s;
     server_ssn := v; server_rsn := server_rsn s |}.

Definition set_server_rsn (v : Z) (s : HdlcConnectionState) :=
  {| current_state := current_state s;
     client_ssn := client_ssn s; client_rsn := client_rsn s;
     server_ssn := server_ssn s; server_rsn := v |}.

Definition LOG_debug (r : LogRecord) : M unit :=
  fun w => (Return tt, {| self := self w; LOG := LOG w ++ [r] |}).

(** [if c: body] with no [else]. *)
Definition when (c : bool) (body : M unit) : M unit :=
  if c then body else ret tt.

(** ** The methods of [HdlcConnectionState] *)

Definition _increment_server_rsn : M unit :=
  n <- getattr server_rsn ;;
  setattr (set_server_rsn (n + 1)) ;;
  n' <- getattr server_rsn ;;
  when (n' >? 7) (setattr (set_server_rsn 0)).

Definition _increment_server_ssn : M unit :=
  n <- getattr server_ssn ;;
  setattr (set_server_ssn (n + 1)) ;;
  n' <- getattr server_ssn ;;
  when (n' >? 7) (setattr (set_server_ssn 0)).

Definition _increment_client_rsn : M unit :=
  n <- getattr client_rsn ;;
  setattr (set_client_rsn (n + 1)) ;;
  n' <- getattr client_rsn ;;
  when (n' >? 7) (setattr (set_client_rsn 0)).

Definition _increment_client_ssn : M unit :=
  n <- getattr client_ssn ;;
  setattr (set_client_ssn (n + 1)) ;;
  n' <- getattr client_ssn ;;
  when (n' >? 7) (setattr (set_client_ssn 0)).

Definition _process_information_frame (frame : InformationFields) : M unit :=
  if response_frame frame then
    ssn <- getattr client_ssn ;;
    when (negb (send_sequence_number frame =? ssn))
         (raise (SendSequenceNumberError (send_sequence_number frame) ssn)) ;;
    rsn <- getattr client_rsn ;;
    when (negb (receive_sequence_number frame =? rsn))
         (raise (ReceiveSequenceNumberError (receive_sequence_number frame) rsn)) ;;
    _increment_server_rsn ;;
    _increment_client_ssn
  else
    ssn <- getattr server_ssn ;;
    when (negb (send_sequence_number frame =? ssn))
         (raise (SendSequenceNumberError (send_sequence_number frame) ssn)) ;;
    rsn <- getattr server_rsn ;;
    when (negb (receive_sequence_number frame =? rsn))
         (raise (ReceiveSequenceNumberError (receive_sequence_number frame) rsn)) ;;
    _increment_server_ssn ;;
    _increment_client_rsn.

(** The two subscripts sit under [try]; [except KeyError] turns a miss of
    either into the [LocalProtocolError]. *)
Definition _transition_state (frame_type : FrameType) : M unit :=
  state <- getattr current_state ;;
  match lookup_transition state frame_type with
  | None =>
      state <- getattr current_state ;;
      raise (CantHandleFrameType frame_type state)
  | Some new_state =>
      old_state <- getattr current_state ;;
      setattr (set_current_state new_state) ;;
      LOG_debug (Transitioned old_state new_state)
  end.

(** [frame_type == frames.InformationFrame] holds exactly for an instance of
    that class, which is the [Information] constructor (see
    [type_of_InformationFrame]); the call then reads the instance's fields. *)
Definition process_frame (frame : Frame) : M unit :=
  match frame with
  | Information fields => _process_information_frame fields
  | _ => ret tt
  end ;;
  _transition_state (type_of frame).

(** A caller processing several frames in a row on one object; an exception
    ends the run. *)
Fixpoint process_frames (frames : list Frame) : M unit :=
  match frames with
  | [] => ret tt
  | frame :: rest => process_frame frame ;; process_frames rest
  end.

(** ** Vocabulary of the specification *)

(** The common body of the four [_increment_*] methods, on the value of the
    attribute: add one, then reset to zero when the sum exceeds seven. *)
Definition incremented (n : Z) : Z := if n + 1 >? 7 then 0 else n + 1.

(** The two comparisons [_process_information_frame] makes before it touches
    a counter: against the client numbers for a response frame, against the
    server numbers otherwise. *)
Definition sequence_check (s : HdlcConnectionState) (f : InformationFields)
  : bool :=
  if response_frame f
  then (send_sequence_number f =? client_ssn s)
       && (receive_sequence_number f =? client_rsn s)
  else (send_sequence_number f =? server_ssn s)
       && (receive_sequence_number f =? server_rsn s).

(** The specification's two error kinds, read off the raise sites. *)
Definition SequenceMismatch (e : LocalProtocolError) : Prop :=
  match e with
  | SendSequenceNumberError _ _ | ReceiveSequenceNumberError _ _ => True
  | CantHandleFrameType _ _ => False
  end.

Definition IllegalTransition (e : LocalProtocolError) : Prop :=
  match e with
  | CantHandleFrameType _ _ => True
  | _ => False
  end.

(** The nine rows of the specification's transition table, in its order
    (phase, frame kind, next phase). *)
Definition transition_table : list (State * FrameType * State) :=
  [ (NOT_CONNECTED, SetNormalResponseModeFrame, AWAITING_CONNECTION);
    (AWAITING_CONNECTION, UnNumberedAcknowledgmentFrame, IDLE);
    (IDLE, InformationFrame, AWAITING_RESPONSE);
    (IDLE, SegmentedInformationRequestFrame, AWAITING_RESPONSE);
    (IDLE, DisconnectFrame, AWAITING_DISCONNECT);
    (AWAITING_RESPONSE, InformationFrame, IDLE);
    (AWAITING_RESPONSE, SegmentedInformationResponseFrame,
       SHOULD_SEND_READY_TO_RECEIVE);
    (SHOULD_SEND_READY_TO_RECEIVE, ReceiveReadyFrame, AWAITING_RESPONSE);
    (AWAITING_DISCONNECT, UnNumberedAcknowledgmentFrame, NOT_CONNECTED) ].

Definition listed (phase : State) (kind : FrameType) : Prop :=
  exists next, In (phase, kind, next) transition_table.

Definition counters_in_range (s : HdlcConnectionState) : Prop :=
  0 <= client_ssn s <= 7 /\ 0 <= client_rsn s <= 7 /\
  0 <= server_ssn s <= 7 /\ 0 <= server_rsn s <= 7.

(** The world after a validated response frame, and after a validated
    request frame. *)
Definition after_response (w : World) : World :=
  {| self := set_client_ssn (incremented (client_ssn (self w)))
               (set_server_rsn (incremented (server_rsn (self w))) (self w));
     LOG := LOG w |}.

Definition after_request (w : World) : World :=
  {| self := set_client_rsn (incremented (client_rsn (self w)))
               (set_server_ssn (incremented (server_ssn (self w))) (self w));
     LOG := LOG w |}.

(** ** The claims' own vocabulary *)

(** The claim's conclusion for one world and one frame: [process_frame]
    raises the illegal-transition error with the frame's type and the
    current state in it, and [current_state] is unchanged afterwards. *)
Definition rejected_as_illegal_transition (w : World) (frame : Frame) : Prop :=
  exists w',
    run (process_frame frame) w =
    (Raise (CantHandleFrameType (type_of frame) (current_state (self w))), w')
    /\ current_state (self w') = current_state (self w).

(** The claim's reading of a successful call: the client pair (client_ssn,
    client_rsn) is advanced and the server pair is as before, or the server
    pair (server_ssn, server_rsn) is advanced and the client pair is as
    before. *)
Definition matched_pair_advanced (s s' : HdlcConnectionState) : Prop :=
  (client_ssn s' = incremented (client_ssn s) /\
   client_rsn s' = incremented (client_rsn s) /\
   server_ssn s' = server_ssn s /\ server_rsn s' = server_rsn s)
  \/
  (server_ssn s' = incremented (server_ssn s) /\
   server_rsn s' = incremented (server_rsn s) /\
   client_ssn s' = client_ssn s /\ client_rsn s' = client_rsn s).

Definition happy_path : list Frame :=
  [ SetNormalResponseMode;
    UnNumberedAcknowledgment;
    Information (mkInformation false 0 0) ].

(** The claim's reading of a rejected call: the object is as before, and
    the same call on it raises the same error again. *)
Definition rejection_leaves_state (w : World) (frame : Frame) : Prop :=
  forall e w',
    run (process_frame frame) w = (Raise e, w') ->
    self w' = self w /\ fst (run (process_frame frame) w') = Raise e.

(** Whether the call got past sequence validation with counters updated. *)
Definition passes_validation (w : World) (frame : Frame) : bool :=
  match frame with
  | Information f => sequence_check (self w) f
  | _ => false
  end.

(** A computation is blind to the log when its outcome and the object it
    leaves depend on the object alone. *)
Definition log_blind {A : Type} (m : M A) : Prop :=
  forall s l1 l2,
    fst (run m (mkWorld s l1)) = fst (run m (mkWorld s l2)) /\
    self (snd (run m (mkWorld s l1))) = self (snd (run m (mkWorld s l2))).

(** ** Send and receive states, and runs of calls *)

Definition SEND_STATES : list State :=
  [NOT_CONNECTED; IDLE; SHOULD_SEND_READY_TO_RECEIVE].

Definition RECEIVE_STATES : list State :=
  [AWAITING_CONNECTION; AWAITING_RESPONSE; AWAITING_DISCONNECT].

(** The object and the log one call of [process_frame] leaves behind,
    whether it returned or raised. *)
Definition after_call (w : World) (frame : Frame) : World :=
  snd (run (process_frame frame) w).

(** The same for a caller that makes the calls one after the other on one
    object and goes on after an exception. *)
Definition after_calls (frames : list Frame) (w : World) : World :=
  fold_left after_call frames w.

(** The world as sequence validation leaves it when it does not raise. *)
Definition validated_world (w : World) (frame : Frame) : World :=
  match frame with
  | Information f =>
      if sequence_check (self w) f
      then if response_frame f then after_response w else after_request w
      else w
  | _ => w
  end.

(** The frames that get past sequence validation: every frame that is not
    an Information frame, and the Information frames whose numbers match. *)
Definition sequence_ok (w : World) (frame : Frame) : bool :=
  match frame with
  | Information f => sequence_check (self w) f
  | _ => true
  end.

(** The two phases without a row in the table. *)
Definition reserved (state : State) : bool :=
  match state with
  | CLOSED | NEED_DATA => true
  | _ => false
  end.

(** [n] copies of a list of frames, one after the other. *)
Fixpoint repeat_frames (n : nat) (frames : list Frame) : list Frame :=
  match n with
  | O => []
  | S n' => frames ++ repeat_frames n' frames
  end.

(** The counters an Information frame is compared with, and the error that
    [_process_information_frame] raises when the comparison fails: the send
    numbers are compared first. *)
Definition expected_ssn (s : HdlcConnectionState) (f : InformationFields) : Z :=
  if response_frame f then client_ssn s else server_ssn s.

Definition expected_rsn (s : HdlcConnectionState) (f : InformationFields) : Z :=
  if response_frame f then client_rsn s else server_rsn s.

Definition sequence_error (s : HdlcConnectionState) (f : InformationFields)
  : LocalProtocolError :=
  if send_sequence_number f =? expected_ssn s f
  then ReceiveSequenceNumberError (receive_sequence_number f) (expected_rsn s f)
  else SendSequenceNumberError (send_sequence_number f) (expected_ssn s f).

(** ** Basic facts *)

Ltac unfold_py :=
  cbv [run process_frame _process_information_frame _transition_state
       _increment_server_rsn _increment_server_ssn
       _increment_client_rsn _increment_client_ssn
       bind ret raise getattr setattr when LOG_debug
       set_current_state set_client_ssn set_client_rsn
       set_server_ssn set_server_rsn
       after_response after_request
       self LOG current_state client_ssn client_rsn server_ssn server_rsn
       response_frame send_sequence_number receive_sequence_number].

Lemma type_of_InformationFrame (frame : Frame) :
  type_of frame = InformationFrame <-> exists fields, frame = Information fields.
Proof.
  split.
  - destruct frame; simpl; intro H; try discriminate H. eauto.
  - intros [fields ->]. reflexivity.
Qed.

Lemma incremented_neq (n : Z) : incremented n <> n.
Proof.
  unfold incremented. destruct (n + 1 >? 7) eqn:E; [apply Z.gtb_lt in E|]; lia.
Qed.

Lemma incremented_range (n : Z) : 0 <= n <= 7 -> 0 <= incremented n <= 7.
Proof.
  unfold incremented. intros H.
  destruct (n + 1 >? 7) eqn:E; [lia|].
  assert (~ n + 1 > 7) by (rewrite Z.gtb_ltb in E; apply Z.ltb_ge in E; lia).
  lia.
Qed.

Lemma incremented_mod8 (n : Z) : 0 <= n <= 7 -> incremented n = (n + 1) mod 8.
Proof.
  intros H. unfold incremented.
  assert (n = 7 \/ 0 <= n <= 6) as [-> | H6] by lia; [reflexivity|].
  rewrite Z.mod_small by lia.
  destruct (n + 1 >? 7) eqn:E; [apply Z.gtb_lt in E; lia | reflexivity].
Qed.

Lemma run_increment_server_rsn (w : World) :
  run _increment_server_rsn w =
  (Return tt, {| self := set_server_rsn (incremented (server_rsn (self w))) (self w);
                 LOG := LOG w |}).
Proof.
  destruct w as [[p a b c d] l]. unfold incremented. unfold_py.
  destruct (d + 1 >? 7); reflexivity.
Qed.

Lemma run_increment_server_ssn (w : World) :
  run _increment_server_ssn w =
  (Return tt, {| self := set_server_ssn (incremented (server_ssn (self w))) (self w);
                 LOG := LOG w |}).
Proof.
  destruct w as [[p a b c d] l]. unfold incremented. unfold_py.
  destruct (c + 1 >? 7); reflexivity.
Qed.

Lemma run_increment_client_rsn (w : World) :
  run _increment_client_rsn w =
  (Return tt, {| self := set_client_rsn (incremented (client_rsn (self w))) (self w);
                 LOG := LOG w |}).
Proof.
  destruct w as [[p a b c d] l]. unfold incremented. unfold_py.
  destruct (b + 1 >? 7); reflexivity.
Qed.

Lemma run_increment_client_ssn (w : World) :
  run _increment_client_ssn w =
  (Return tt, {| self := set_client_ssn (incremented (client_ssn (self w))) (self w);
                 LOG := LOG w |}).
Proof.
  destruct w as [[p a b c d] l]. unfold incremented. unfold_py.
  destruct (a + 1 >? 7); reflexivity.
Qed.

Lemma run_bind {A B : Type} (m : M A) (k : A -> M B) (w : World) :
  run (bind m k) w =
  match run m w with
  | (Return a, w') => run (k a) w'
  | (Raise e, w') => (Raise e, w')
  end.
Proof. reflexivity. Qed.

(** Sequence validation, in closed form. *)
Lemma run_information_accepted (w : World) (f : InformationFields) :
  sequence_check (self w) f = true ->
  run (_process_information_frame f) w =
  (Return tt, if response_frame f then after_response w else after_request w).
Proof.
  destruct w as [[p a b c d] l], f as [rf s r].
  unfold sequence_check; simpl. intros H.
  destruct rf; apply andb_true_iff in H as [Hs Hr];
    apply Z.eqb_eq in Hs, Hr; subst s r;
    do 2 (unfold_py; rewrite ?Z.eqb_refl; cbv [negb]); unfold_py;
    unfold incremented.
  - destruct (d + 1 >? 7), (a + 1 >? 7); reflexivity.
  - destruct (c + 1 >? 7), (b + 1 >? 7); reflexivity.
Qed.

Lemma run_information_rejected (w : World) (f : InformationFields) :
  sequence_check (self w) f = false ->
  exists e, SequenceMismatch e /\
            run (_process_information_frame f) w = (Raise e, w).
Proof.
  destruct w as [[p a b c d] l], f as [rf s r].
  unfold sequence_check; simpl. intros H.
  destruct rf;
    [ destruct (s =? a) eqn:Hs, (r =? b) eqn:Hr
    | destruct (s =? c) eqn:Hs, (r =? d) eqn:Hr ];
    try discriminate H;
    do 2 (unfold_py; rewrite ?Hs, ?Hr; cbv [negb]);
    (eexists; split; [|reflexivity]; exact I).
Qed.

Lemma run_transition_state_miss (w : World) (frame_type : FrameType) :
  lookup_transition (current_state (self w)) frame_type = None ->
  run (_transition_state frame_type) w =
  (Raise (CantHandleFrameType frame_type (current_state (self w))), w).
Proof.
  intros H. unfold _transition_state. rewrite run_bind.
  unfold getattr at 1, run at 1. rewrite H. reflexivity.
Qed.

Lemma run_transition_state_hit (w : World) (frame_type : FrameType)
      (new_state : State) :
  lookup_transition (current_state (self w)) frame_type = Some new_state ->
  run (_transition_state frame_type) w =
  (Return tt,
   {| self := set_current_state new_state (self w);
      LOG := LOG w ++ [Transitioned (current_state (self w)) new_state] |}).
Proof.
  intros H. unfold _transition_state. rewrite run_bind.
  unfold getattr at 1, run at 1. rewrite H. reflexivity.
Qed.

Lemma run_process_other_frame (w : World) (frame : Frame) :
  type_of frame <> InformationFrame ->
  run (process_frame frame) w = run (_transition_state (type_of frame)) w.
Proof.
  destruct frame; simpl; intros H; try reflexivity. now destruct H.
Qed.

Lemma run_process_information_frame (w : World) (f : InformationFields) :
  run (process_frame (Information f)) w =
  match run (_process_information_frame f) w with
  | (Return _, w') => run (_transition_state InformationFrame) w'
  | (Raise e, w') => (Raise e, w')
  end.
Proof. unfold process_frame. rewrite run_bind. reflexivity. Qed.

Lemma transition_table_lookup (p : State) (k : FrameType) (n : State) :
  In (p, k, n) transition_table <-> lookup_transition p k = Some n.
Proof.
  split.
  - unfold transition_table. simpl.
    intros H.
    repeat (destruct H as [H | H]; [injection H as <- <- <-; reflexivity|]).
    destruct H.
  - destruct p, k; intros H; try discriminate H;
      injection H as <-; unfold transition_table; simpl; auto 12.
Qed.

Lemma unlisted_lookup (p : State) (k : FrameType) :
  ~ listed p k <-> lookup_transition p k = None.
Proof.
  unfold listed. split.
  - intros H. destruct (lookup_transition p k) as [n|] eqn:E; [|reflexivity].
    exfalso. apply H. exists n. now apply transition_table_lookup.
  - intros H [n Hn]. apply transition_table_lookup in Hn. congruence.
Qed.

(** * The claims *)

(** ** C1: pairs outside the table *)

(** C1, as stated, fails: (NOT_CONNECTED, Information) is not a row of the
    table, yet an Information frame whose send sequence number (1) differs
    from server_ssn (0) is rejected by the sequence check, which runs before
    the table is consulted; the error is the send-sequence one, not the
    illegal-transition one. *)
Lemma unlisted_pair_sequence_error_first :
  ~ listed NOT_CONNECTED InformationFrame /\
  run (process_frame (Information (mkInformation false 1 0)))
      (mkWorld default_state []) =
  (Raise (SendSequenceNumberError 1 0), mkWorld default_state []) /\
  ~ rejected_as_illegal_transition
      (mkWorld default_state []) (Information (mkInformation false 1 0)).
Proof.
  split; [|split].
  - apply unlisted_lookup. reflexivity.
  - reflexivity.
  - intros [w' [H _]]. vm_compute in H. discriminate H.
Qed.

(** C1 (amended): a pair is a row of the table exactly when the lookup
    yields that row's next phase.  For every pair that is not a row, a frame
    of that kind which is not an Information frame, or is one whose sequence
    numbers pass the check, is rejected with the illegal-transition error
    carrying the frame type and the current phase, and the phase is
    unchanged; an Information frame whose sequence numbers fail the check is
    rejected with a sequence error instead, the whole state unchanged. *)
Theorem unlisted_pair_rejected :
  (forall p k n, In (p, k, n) transition_table <-> lookup_transition p k = Some n)
  /\
  (forall w frame,
      ~ listed (current_state (self w)) (type_of frame) ->
      (type_of frame <> InformationFrame \/
       exists f, frame = Information f /\ sequence_check (self w) f = true) ->
      rejected_as_illegal_transition w frame)
  /\
  (forall w f,
      ~ listed (current_state (self w)) InformationFrame ->
      sequence_check (self w) f = false ->
      exists e, SequenceMismatch e /\
                run (process_frame (Information f)) w = (Raise e, w)).
Proof.
  split; [exact transition_table_lookup|split].
  - intros w frame Hun [Hother | [f [-> Hok]]]; apply unlisted_lookup in Hun.
    + exists w. split; [|reflexivity].
      rewrite run_process_other_frame by assumption.
      now apply run_transition_state_miss.
    + exists (if response_frame f then after_response w else after_request w).
      split.
      * rewrite run_process_information_frame, run_information_accepted by assumption.
        simpl type_of in *.
        destruct (response_frame f);
          rewrite run_transition_state_miss by exact Hun; reflexivity.
      * destruct (response_frame f); reflexivity.
  - intros w f _ Hbad.
    destruct (run_information_rejected w f Hbad) as [e [He Hrun]].
    exists e. split; [exact He|].
    rewrite run_process_information_frame, Hrun. reflexivity.
Qed.

(** In CLOSED no frame is handled: a ReceiveReady frame is rejected. *)
Lemma unlisted_pair_rejected_witness :
  rejected_as_illegal_transition
    (mkWorld (mkHdlcConnectionState CLOSED 3 4 5 6) []) ReceiveReady.
Proof.
  apply (proj1 (proj2 unlisted_pair_rejected)).
  - intros [n Hn]. apply transition_table_lookup in Hn. discriminate Hn.
  - left. discriminate.
Defined.

(** ** C2: a response frame *)

(** C2: for an Information frame with [response_frame] true, when both
    sequence numbers equal client_ssn and client_rsn, validation returns
    with server_rsn incremented and then client_ssn incremented (and
    [process_frame] goes on to the table from that state); otherwise
    [process_frame] raises a sequence error and the whole state is as
    before. *)
Theorem response_frame_validation (w : World) (ssn rsn : Z) :
  (ssn = client_ssn (self w) /\ rsn = client_rsn (self w) ->
   run (_process_information_frame (mkInformation true ssn rsn)) w
   = (Return tt, after_response w)
   /\ run (_increment_server_rsn ;; _increment_client_ssn) w
      = (Return tt, after_response w)
   /\ run (process_frame (Information (mkInformation true ssn rsn))) w
      = run (_transition_state InformationFrame) (after_response w))
  /\
  (~ (ssn = client_ssn (self w) /\ rsn = client_rsn (self w)) ->
   exists e, SequenceMismatch e /\
     run (process_frame (Information (mkInformation true ssn rsn))) w
     = (Raise e, w)).
Proof.
  split.
  - intros [-> ->].
    assert (Hok : sequence_check (self w)
                    (mkInformation true (client_ssn (self w)) (client_rsn (self w)))
                  = true).
    { unfold sequence_check; simpl. now rewrite !Z.eqb_refl. }
    split; [|split].
    + now rewrite run_information_accepted.
    + rewrite run_bind, run_increment_server_rsn, run_increment_client_ssn.
      reflexivity.
    + rewrite run_process_information_frame, run_information_accepted by exact Hok.
      reflexivity.
  - intros Hne.
    assert (Hbad : sequence_check (self w) (mkInformation true ssn rsn) = false).
    { unfold sequence_check; simpl.
      destruct (ssn =? client_ssn (self w)) eqn:Es; [|reflexivity].
      destruct (rsn =? client_rsn (self w)) eqn:Er; [|reflexivity].
      apply Z.eqb_eq in Es, Er. now destruct Hne. }
    destruct (run_information_rejected w _ Hbad) as [e [He Hrun]].
    exists e. split; [exact He|].
    rewrite run_process_information_frame, Hrun. reflexivity.
Qed.

(** A response frame numbered (7, 2) on a connection whose client numbers
    are (7, 2): server_rsn goes from 7 to 0 and client_ssn from 7 to 0. *)
Lemma response_frame_validation_witness :
  run (_process_information_frame (mkInformation true 7 2))
      (mkWorld (mkHdlcConnectionState AWAITING_RESPONSE 7 2 4 7) [])
  = (Return tt, mkWorld (mkHdlcConnectionState AWAITING_RESPONSE 0 2 4 0) []).
Proof.
  apply (proj1 (response_frame_validation
                  (mkWorld (mkHdlcConnectionState AWAITING_RESPONSE 7 2 4 7) [])
                  7 2)).
  split; reflexivity.
Defined.

(** ** C3: a request frame *)

(** C3: for an Information frame with [response_frame] false, when both
    sequence numbers equal server_ssn and server_rsn, validation returns
    with server_ssn incremented and then client_rsn incremented (and
    [process_frame] goes on to the table from that state); otherwise
    [process_frame] raises a sequence error and the whole state is as
    before. *)
Theorem request_frame_validation (w : World) (ssn rsn : Z) :
  (ssn = server_ssn (self w) /\ rsn = server_rsn (self w) ->
   run (_process_information_frame (mkInformation false ssn rsn)) w
   = (Return tt, after_request w)
   /\ run (_increment_server_ssn ;; _increment_client_rsn) w
      = (Return tt, after_request w)
   /\ run (process_frame (Information (mkInformation false ssn rsn))) w
      = run (_transition_state InformationFrame) (after_request w))
  /\
  (~ (ssn = server_ssn (self w) /\ rsn = server_rsn (self w)) ->
   exists e, SequenceMismatch e /\
     run (process_frame (Information (mkInformation false ssn rsn))) w
     = (Raise e, w)).
Proof.
  split.
  - intros [-> ->].
    assert (Hok : sequence_check (self w)
                    (mkInformation false (server_ssn (self w)) (server_rsn (self w)))
                  = true).
    { unfold sequence_check; simpl. now rewrite !Z.eqb_refl. }
    split; [|split].
    + now rewrite run_information_accepted.
    + rewrite run_bind, run_increment_server_ssn, run_increment_client_rsn.
      reflexivity.
    + rewrite run_process_information_frame, run_information_accepted by exact Hok.
      reflexivity.
  - intros Hne.
    assert (Hbad : sequence_check (self w) (mkInformation false ssn rsn) = false).
    { unfold sequence_check; simpl.
      destruct (ssn =? server_ssn (self w)) eqn:Es; [|reflexivity].
      destruct (rsn =? server_rsn (self w)) eqn:Er; [|reflexivity].
      apply Z.eqb_eq in Es, Er. now destruct Hne. }
    destruct (run_information_rejected w _ Hbad) as [e [He Hrun]].
    exists e. split; [exact He|].
    rewrite run_process_information_frame, Hrun. reflexivity.
Qed.

(** A request frame numbered (3, 5) against server numbers (3, 6): the
    receive number differs, the frame is refused and nothing moves. *)
Lemma request_frame_validation_witness :
  exists e, SequenceMismatch e /\
    run (process_frame (Information (mkInformation false 3 5)))
        (mkWorld (mkHdlcConnectionState IDLE 1 2 3 6) [])
    = (Raise e, mkWorld (mkHdlcConnectionState IDLE 1 2 3 6) []).
Proof.
  apply (proj2 (request_frame_validation
                  (mkWorld (mkHdlcConnectionState IDLE 1 2 3 6) []) 3 5)).
  simpl. intros [_ H]. discriminate H.
Defined.

(** ** C4: validated, then no transition *)

(** C4: an Information frame whose sequence numbers pass the check, in a
    phase with no Information row, makes [process_frame] raise the
    illegal-transition error; the phase is unchanged, and the object is left
    exactly as validation left it, its two counters incremented (hence
    different from before) and the other two untouched.  Validation and the
    counter update come before the table lookup. *)
Theorem validated_frame_without_transition (w : World) (f : InformationFields) :
  sequence_check (self w) f = true ->
  lookup_transition (current_state (self w)) InformationFrame = None ->
  exists w',
    run (_process_information_frame f) w = (Return tt, w') /\
    run (process_frame (Information f)) w =
      (Raise (CantHandleFrameType InformationFrame (current_state (self w))), w') /\
    run (process_frame (Information f)) w =
      run (_process_information_frame f ;; _transition_state InformationFrame) w /\
    current_state (self w') = current_state (self w) /\
    LOG w' = LOG w /\
    (if response_frame f
     then server_rsn (self w') = incremented (server_rsn (self w)) /\
          client_ssn (self w') = incremented (client_ssn (self w)) /\
          server_rsn (self w') <> server_rsn (self w) /\
          client_ssn (self w') <> client_ssn (self w) /\
          server_ssn (self w') = server_ssn (self w) /\
          client_rsn (self w') = client_rsn (self w)
     else server_ssn (self w') = incremented (server_ssn (self w)) /\
          client_rsn (self w') = incremented (client_rsn (self w)) /\
          server_ssn (self w') <> server_ssn (self w) /\
          client_rsn (self w') <> client_rsn (self w) /\
          server_rsn (self w') = server_rsn (self w) /\
          client_ssn (self w') = client_ssn (self w)).
Proof.
  intros Hok Hmiss.
  exists (if response_frame f then after_response w else after_request w).
  split; [now apply run_information_accepted|].
  split.
  { rewrite run_process_information_frame, run_information_accepted by exact Hok.
    destruct (response_frame f);
      rewrite run_transition_state_miss by exact Hmiss; reflexivity. }
  split; [reflexivity|].
  destruct (response_frame f); simpl;
    repeat split; auto using incremented_neq.
Qed.

(** The spec's example: matching numbers while in NOT_CONNECTED. *)
Lemma validated_frame_without_transition_witness :
  exists w',
    run (process_frame (Information (mkInformation false 0 0)))
        (mkWorld default_state []) =
      (Raise (CantHandleFrameType InformationFrame NOT_CONNECTED), w') /\
    current_state (self w') = NOT_CONNECTED /\
    server_ssn (self w') = 1 /\ client_rsn (self w') = 1.
Proof.
  destruct (validated_frame_without_transition
              (mkWorld default_state []) (mkInformation false 0 0)
              eq_refl eq_refl)
    as [w' [_ [Hrun [_ [Hphase [_ [Hs [Hr _]]]]]]]].
  exists w'. repeat split; assumption.
Defined.

(** ** C5: which counters move *)

(** C5, as stated, fails: in IDLE with all counters 0, the request frame
    numbered (0, 0) is accepted, and it advances server_ssn and client_rsn,
    one counter of each side, so neither the client pair nor the server pair
    is the one advanced. *)
Lemma request_advances_one_counter_per_side :
  run (process_frame (Information (mkInformation false 0 0)))
      (mkWorld (mkHdlcConnectionState IDLE 0 0 0 0) [])
  = (Return tt,
     mkWorld (mkHdlcConnectionState AWAITING_RESPONSE 0 1 1 0)
             [Transitioned IDLE AWAITING_RESPONSE])
  /\ ~ matched_pair_advanced
         (mkHdlcConnectionState IDLE 0 0 0 0)
         (mkHdlcConnectionState AWAITING_RESPONSE 0 1 1 0).
Proof.
  split; [reflexivity|].
  intros [[H _] | [_ [H _]]]; vm_compute in H; discriminate H.
Qed.

(** C5 (amended): a successful call of [process_frame] on an Information
    frame advances exactly one send counter and one receive counter, of
    opposite sides: server_rsn and client_ssn for a response frame,
    server_ssn and client_rsn otherwise; the other two counters are as
    before. *)
Theorem information_frame_advances_crossed_pair
        (w w' : World) (f : InformationFields) :
  run (process_frame (Information f)) w = (Return tt, w') ->
  if response_frame f
  then server_rsn (self w') = incremented (server_rsn (self w)) /\
       client_ssn (self w') = incremented (client_ssn (self w)) /\
       server_rsn (self w') <> server_rsn (self w) /\
       client_ssn (self w') <> client_ssn (self w) /\
       server_ssn (self w') = server_ssn (self w) /\
       client_rsn (self w') = client_rsn (self w)
  else server_ssn (self w') = incremented (server_ssn (self w)) /\
       client_rsn (self w') = incremented (client_rsn (self w)) /\
       server_ssn (self w') <> server_ssn (self w) /\
       client_rsn (self w') <> client_rsn (self w) /\
       server_rsn (self w') = server_rsn (self w) /\
       client_ssn (self w') = client_ssn (self w).
Proof.
  intros Hrun. rewrite run_process_information_frame in Hrun.
  destruct (sequence_check (self w) f) eqn:Hchk.
  - rewrite run_information_accepted in Hrun by exact Hchk.
    destruct (response_frame f).
    + destruct (lookup_transition (current_state (self (after_response w)))
                                  InformationFrame) as [n|] eqn:El.
      * rewrite (run_transition_state_hit _ _ _ El) in Hrun.
        injection Hrun as <-. simpl. repeat split; auto using incremented_neq.
      * rewrite (run_transition_state_miss _ _ El) in Hrun. discriminate Hrun.
    + destruct (lookup_transition (current_state (self (after_request w)))
                                  InformationFrame) as [n|] eqn:El.
      * rewrite (run_transition_state_hit _ _ _ El) in Hrun.
        injection Hrun as <-. simpl. repeat split; auto using incremented_neq.
      * rewrite (run_transition_state_miss _ _ El) in Hrun. discriminate Hrun.
  - destruct (run_information_rejected w f Hchk) as [e [_ He]].
    rewrite He in Hrun. discriminate Hrun.
Qed.

(** A response frame accepted in AWAITING_RESPONSE. *)
Lemma information_frame_advances_crossed_pair_witness :
  server_rsn (mkHdlcConnectionState IDLE 3 5 1 0) = incremented 7 /\
  client_ssn (mkHdlcConnectionState IDLE 3 5 1 0) = incremented 2 /\
  server_rsn (mkHdlcConnectionState IDLE 3 5 1 0) <> 7 /\
  client_ssn (mkHdlcConnectionState IDLE 3 5 1 0) <> 2 /\
  server_ssn (mkHdlcConnectionState IDLE 3 5 1 0) = 1 /\
  client_rsn (mkHdlcConnectionState IDLE 3 5 1 0) = 5.
Proof.
  exact (information_frame_advances_crossed_pair
           (mkWorld (mkHdlcConnectionState AWAITING_RESPONSE 2 5 1 7) [])
           (mkWorld (mkHdlcConnectionState IDLE 3 5 1 0)
                    [Transitioned AWAITING_RESPONSE IDLE])
           (mkInformation true 2 5) eq_refl).
Defined.

(** ** C6: the happy path *)

(** C6, as stated, fails in its last step: the three frames are accepted
    and the phase ends in AWAITING_RESPONSE, but the request frame
    ([response_frame] false) goes through the branch that increments
    server_ssn and client_rsn, so server_rsn and client_ssn are still 0,
    not 1. *)
Lemma happy_path_request_counters :
  run (process_frames happy_path) (mkWorld default_state [])
  = (Return tt,
     mkWorld (mkHdlcConnectionState AWAITING_RESPONSE 0 1 1 0)
             [ Transitioned NOT_CONNECTED AWAITING_CONNECTION;
               Transitioned AWAITING_CONNECTION IDLE;
               Transitioned IDLE AWAITING_RESPONSE ])
  /\ ~ (server_rsn (self (snd (run (process_frames happy_path)
                                   (mkWorld default_state [])))) = 1
        /\ client_ssn (self (snd (run (process_frames happy_path)
                                      (mkWorld default_state [])))) = 1).
Proof.
  split; [reflexivity|].
  intros [H _]. vm_compute in H. discriminate H.
Qed.

(** C6 (amended): from the default object (NOT_CONNECTED, all counters 0),
    a SetNormalResponseMode frame yields AWAITING_CONNECTION, then an
    UnNumberedAcknowledgment frame yields IDLE, then the Information request
    frame ([response_frame] false, numbers 0 and 0) is accepted and yields
    AWAITING_RESPONSE with server_ssn = 1 and client_rsn = 1, while
    server_rsn and client_ssn stay 0. *)
Theorem happy_path_round_trip :
  run (process_frame SetNormalResponseMode) (mkWorld default_state [])
  = (Return tt,
     mkWorld (mkHdlcConnectionState AWAITING_CONNECTION 0 0 0 0)
             [ Transitioned NOT_CONNECTED AWAITING_CONNECTION ])
  /\
  run (process_frame UnNumberedAcknowledgment)
      (mkWorld (mkHdlcConnectionState AWAITING_CONNECTION 0 0 0 0)
               [ Transitioned NOT_CONNECTED AWAITING_CONNECTION ])
  = (Return tt,
     mkWorld (mkHdlcConnectionState IDLE 0 0 0 0)
             [ Transitioned NOT_CONNECTED AWAITING_CONNECTION;
               Transitioned AWAITING_CONNECTION IDLE ])
  /\
  run (process_frame (Information (mkInformation false 0 0)))
      (mkWorld (mkHdlcConnectionState IDLE 0 0 0 0)
               [ Transitioned NOT_CONNECTED AWAITING_CONNECTION;
                 Transitioned AWAITING_CONNECTION IDLE ])
  = (Return tt,
     mkWorld {| current_state := AWAITING_RESPONSE;
                client_ssn := 0; client_rsn := 1;
                server_ssn := 1; server_rsn := 0 |}
             [ Transitioned NOT_CONNECTED AWAITING_CONNECTION;
               Transitioned AWAITING_CONNECTION IDLE;
               Transitioned IDLE AWAITING_RESPONSE ])
  /\
  run (process_frames happy_path) (mkWorld default_state [])
  = (Return tt,
     mkWorld {| current_state := AWAITING_RESPONSE;
                client_ssn := 0; client_rsn := 1;
                server_ssn := 1; server_rsn := 0 |}
             [ Transitioned NOT_CONNECTED AWAITING_CONNECTION;
               Transitioned AWAITING_CONNECTION IDLE;
               Transitioned IDLE AWAITING_RESPONSE ]).
Proof. repeat split. Qed.

(** ** C7: rejected frames *)

(** C7, as stated, fails: on the default object the request frame numbered
    (0, 0) passes validation, which increments server_ssn and client_rsn,
    and is then rejected because NOT_CONNECTED has no Information row.  The
    rejected call has changed two counters, and a second call with the same
    frame on the object raises another error (the send-sequence one). *)
Lemma rejected_call_mutates_counters :
  run (process_frame (Information (mkInformation false 0 0)))
      (mkWorld default_state [])
  = (Raise (CantHandleFrameType InformationFrame NOT_CONNECTED),
     mkWorld (mkHdlcConnectionState NOT_CONNECTED 0 1 1 0) [])
  /\
  run (process_frame (Information (mkInformation false 0 0)))
      (mkWorld (mkHdlcConnectionState NOT_CONNECTED 0 1 1 0) [])
  = (Raise (SendSequenceNumberError 0 1),
     mkWorld (mkHdlcConnectionState NOT_CONNECTED 0 1 1 0) [])
  /\
  ~ rejection_leaves_state (mkWorld default_state [])
                           (Information (mkInformation false 0 0)).
Proof.
  split; [reflexivity|split; [reflexivity|]].
  intros H. destruct (H _ _ eq_refl) as [Hself _]. discriminate Hself.
Qed.

(** C7 (amended): when [process_frame] rejects a frame that did not get
    past sequence validation (any frame that is not an Information frame,
    or an Information frame whose numbers fail the check), nothing has
    changed, and calling it again with the same frame raises the same error
    and again changes nothing.  When it rejects an Information frame that
    passed validation, the error is the illegal-transition one and the phase
    is unchanged, but the two counters validation incremented stay
    incremented: server_rsn and client_ssn for a response frame, server_ssn
    and client_rsn otherwise, each different from its value before the call,
    the other two counters as before. *)
Theorem rejection_unless_validated
        (w w' : World) (frame : Frame) (e : LocalProtocolError) :
  run (process_frame frame) w = (Raise e, w') ->
  (passes_validation w frame = false ->
   w' = w /\ run (process_frame frame) w' = (Raise e, w'))
  /\
  (passes_validation w frame = true ->
   e = CantHandleFrameType (type_of frame) (current_state (self w)) /\
   current_state (self w') = current_state (self w) /\
   LOG w' = LOG w /\
   self w' <> self w /\
   exists f,
     frame = Information f /\
     if response_frame f
     then server_rsn (self w') = incremented (server_rsn (self w)) /\
          client_ssn (self w') = incremented (client_ssn (self w)) /\
          server_rsn (self w') <> server_rsn (self w) /\
          client_ssn (self w') <> client_ssn (self w) /\
          server_ssn (self w') = server_ssn (self w) /\
          client_rsn (self w') = client_rsn (self w)
     else server_ssn (self w') = incremented (server_ssn (self w)) /\
          client_rsn (self w') = incremented (client_rsn (self w)) /\
          server_ssn (self w') <> server_ssn (self w) /\
          client_rsn (self w') <> client_rsn (self w) /\
          server_rsn (self w') = server_rsn (self w) /\
          client_ssn (self w') = client_ssn (self w)).
Proof.
  intros Hrun. split; intros Hv.
  - assert (Hw : w' = w).
    { destruct frame as [| |f| | | |];
        try (rewrite run_process_other_frame in Hrun by discriminate;
             simpl type_of in Hrun;
             match type of Hrun with
             | run (_transition_state ?k) _ = _ =>
                 destruct (lookup_transition (current_state (self w)) k) eqn:El
             end;
             [ rewrite (run_transition_state_hit _ _ _ El) in Hrun; discriminate Hrun
             | rewrite (run_transition_state_miss _ _ El) in Hrun;
               now injection Hrun as _ <- ]).
      simpl in Hv. destruct (run_information_rejected w f Hv) as [e' [_ He']].
      rewrite run_process_information_frame, He' in Hrun.
      now injection Hrun as _ <-. }
    subst w'. split; [reflexivity | exact Hrun].
  - destruct frame as [| |f| | | |]; try discriminate Hv. simpl in Hv.
    rewrite run_process_information_frame in Hrun.
    rewrite run_information_accepted in Hrun by exact Hv.
    simpl type_of.
    destruct (response_frame f) eqn:Hrf.
    + destruct (lookup_transition (current_state (self (after_response w)))
                                  InformationFrame) as [n|] eqn:El.
      * rewrite (run_transition_state_hit _ _ _ El) in Hrun. discriminate Hrun.
      * rewrite (run_transition_state_miss _ _ El) in Hrun.
        injection Hrun as <- <-.
        do 3 (split; [reflexivity|]). split.
        { intros H. apply (f_equal client_ssn) in H. simpl in H.
          now apply incremented_neq in H. }
        exists f. split; [reflexivity|]. rewrite Hrf. simpl.
        repeat split; auto using incremented_neq.
    + destruct (lookup_transition (current_state (self (after_request w)))
                                  InformationFrame) as [n|] eqn:El.
      * rewrite (run_transition_state_hit _ _ _ El) in Hrun. discriminate Hrun.
      * rewrite (run_transition_state_miss _ _ El) in Hrun.
        injection Hrun as <- <-.
        do 3 (split; [reflexivity|]). split.
        { intros H. apply (f_equal client_rsn) in H. simpl in H.
          now apply incremented_neq in H. }
        exists f. split; [reflexivity|]. rewrite Hrf. simpl.
        repeat split; auto using incremented_neq.
Qed.

(** A Disconnect frame while AWAITING_RESPONSE is refused twice alike; on
    the default object the request frame numbered (0, 0) is refused after
    validation, with server_ssn and client_rsn moved from 0 to 1 and
    server_rsn and client_ssn still 0. *)
Lemma rejection_unless_validated_witness :
  (mkWorld (mkHdlcConnectionState AWAITING_RESPONSE 1 2 3 4) []
   = mkWorld (mkHdlcConnectionState AWAITING_RESPONSE 1 2 3 4) []
   /\ run (process_frame Disconnect)
          (mkWorld (mkHdlcConnectionState AWAITING_RESPONSE 1 2 3 4) [])
      = (Raise (CantHandleFrameType DisconnectFrame AWAITING_RESPONSE),
         mkWorld (mkHdlcConnectionState AWAITING_RESPONSE 1 2 3 4) []))
  /\
  (server_ssn (mkHdlcConnectionState NOT_CONNECTED 0 1 1 0) = incremented 0 /\
   client_rsn (mkHdlcConnectionState NOT_CONNECTED 0 1 1 0) = incremented 0 /\
   server_ssn (mkHdlcConnectionState NOT_CONNECTED 0 1 1 0) <> 0 /\
   client_rsn (mkHdlcConnectionState NOT_CONNECTED 0 1 1 0) <> 0 /\
   server_rsn (mkHdlcConnectionState NOT_CONNECTED 0 1 1 0) = 0 /\
   client_ssn (mkHdlcConnectionState NOT_CONNECTED 0 1 1 0) = 0).
Proof.
  split.
  - exact (proj1 (rejection_unless_validated
                    (mkWorld (mkHdlcConnectionState AWAITING_RESPONSE 1 2 3 4) [])
                    (mkWorld (mkHdlcConnectionState AWAITING_RESPONSE 1 2 3 4) [])
                    Disconnect
                    (CantHandleFrameType DisconnectFrame AWAITING_RESPONSE)
                    eq_refl) eq_refl).
  - destruct (proj2 (rejection_unless_validated
                       (mkWorld default_state [])
                       (mkWorld (mkHdlcConnectionState NOT_CONNECTED 0 1 1 0) [])
                       (Information (mkInformation false 0 0))
                       (CantHandleFrameType InformationFrame NOT_CONNECTED)
                       eq_refl) eq_refl)
      as [_ [_ [_ [_ [f [Hf H]]]]]].
    injection Hf as <-. exact H.
Defined.

(** ** C8: the counters stay within 0..7 *)

Lemma run_transition_state_counters (w : World) (frame_type : FrameType) :
  client_ssn (self (snd (run (_transition_state frame_type) w)))
    = client_ssn (self w) /\
  client_rsn (self (snd (run (_transition_state frame_type) w)))
    = client_rsn (self w) /\
  server_ssn (self (snd (run (_transition_state frame_type) w)))
    = server_ssn (self w) /\
  server_rsn (self (snd (run (_transition_state frame_type) w)))
    = server_rsn (self w).
Proof.
  destruct (lookup_transition (current_state (self w)) frame_type) eqn:El.
  - rewrite (run_transition_state_hit _ _ _ El). repeat split.
  - rewrite (run_transition_state_miss _ _ El). repeat split.
Qed.

Lemma transition_state_in_range (w : World) (frame_type : FrameType) :
  counters_in_range (self w) ->
  counters_in_range (self (snd (run (_transition_state frame_type) w))).
Proof.
  unfold counters_in_range.
  destruct (run_transition_state_counters w frame_type) as [-> [-> [-> ->]]].
  trivial.
Qed.

(** C8: if the four counters are within 0..7 before a call of
    [process_frame], they are within 0..7 after it, whether it returned or
    raised.  Each [_increment_*] method replaces its counter [n] by
    [incremented n]; that is 0 at 7, and (n + 1) mod 8 on 0..7. *)
Theorem counters_stay_in_range (w : World) (frame : Frame) :
  counters_in_range (self w) ->
  counters_in_range (self (snd (run (process_frame frame) w)))
  /\ incremented 7 = 0
  /\ (forall n, 0 <= n <= 7 -> incremented n = (n + 1) mod 8)
  /\ (forall w0,
        server_rsn (self (snd (run _increment_server_rsn w0)))
          = incremented (server_rsn (self w0)) /\
        server_ssn (self (snd (run _increment_server_ssn w0)))
          = incremented (server_ssn (self w0)) /\
        client_rsn (self (snd (run _increment_client_rsn w0)))
          = incremented (client_rsn (self w0)) /\
        client_ssn (self (snd (run _increment_client_ssn w0)))
          = incremented (client_ssn (self w0))).
Proof.
  intros Hin. split; [|split; [reflexivity|split]].
  - destruct frame as [| |f| | | |];
      try (rewrite run_process_other_frame by discriminate;
           now apply transition_state_in_range).
    rewrite run_process_information_frame.
    destruct (sequence_check (self w) f) eqn:Hchk.
    + rewrite run_information_accepted by exact Hchk.
      apply transition_state_in_range.
      destruct Hin as [H1 [H2 [H3 H4]]].
      destruct (response_frame f); unfold counters_in_range; simpl;
        auto using incremented_range.
    + destruct (run_information_rejected w f Hchk) as [e [_ ->]]. exact Hin.
  - exact incremented_mod8.
  - intros w0.
    rewrite run_increment_server_rsn, run_increment_server_ssn,
            run_increment_client_rsn, run_increment_client_ssn.
    repeat split.
Qed.

(** All four counters at 7, and a response frame numbered (7, 7) accepted in
    AWAITING_RESPONSE: afterwards the counters are still within 0..7. *)
Lemma counters_stay_in_range_witness :
  counters_in_range
    (self (snd (run (process_frame (Information (mkInformation true 7 7)))
                    (mkWorld (mkHdlcConnectionState AWAITING_RESPONSE 7 7 7 7) [])))).
Proof.
  apply (counters_stay_in_range
           (mkWorld (mkHdlcConnectionState AWAITING_RESPONSE 7 7 7 7) [])
           (Information (mkInformation true 7 7))).
  unfold counters_in_range. simpl. lia.
Defined.

(** ** C9: frames that are not Information frames *)

(** C9: for a frame whose class is not InformationFrame, [process_frame] is
    the table transition alone (no sequence validation), the four counters
    are as before whether the call returns or raises, and the only error it
    can raise is the illegal-transition one. *)
Theorem other_frames_keep_counters (w : World) (frame : Frame) :
  type_of frame <> InformationFrame ->
  run (process_frame frame) w = run (_transition_state (type_of frame)) w /\
  client_ssn (self (snd (run (process_frame frame) w))) = client_ssn (self w) /\
  client_rsn (self (snd (run (process_frame frame) w))) = client_rsn (self w) /\
  server_ssn (self (snd (run (process_frame frame) w))) = server_ssn (self w) /\
  server_rsn (self (snd (run (process_frame frame) w))) = server_rsn (self w) /\
  (forall e, fst (run (process_frame frame) w) = Raise e -> IllegalTransition e).
Proof.
  intros Hother. rewrite (run_process_other_frame _ _ Hother).
  split; [reflexivity|].
  destruct (run_transition_state_counters w (type_of frame)) as [H1 [H2 [H3 H4]]].
  repeat (split; [assumption|]).
  intros e.
  destruct (lookup_transition (current_state (self w)) (type_of frame)) eqn:El.
  - rewrite (run_transition_state_hit _ _ _ El). discriminate.
  - rewrite (run_transition_state_miss _ _ El). simpl.
    intros H. injection H as <-. exact I.
Qed.

(** A ReceiveReady frame in SHOULD_SEND_READY_TO_RECEIVE: the phase moves,
    the counters do not. *)
Lemma other_frames_keep_counters_witness :
  run (process_frame ReceiveReady)
      (mkWorld (mkHdlcConnectionState SHOULD_SEND_READY_TO_RECEIVE 1 2 3 4) [])
  = (Return tt,
     mkWorld (mkHdlcConnectionState AWAITING_RESPONSE 1 2 3 4)
             [Transitioned SHOULD_SEND_READY_TO_RECEIVE AWAITING_RESPONSE]).
Proof.
  refine (eq_trans
            (proj1 (other_frames_keep_counters
                      (mkWorld (mkHdlcConnectionState
                                  SHOULD_SEND_READY_TO_RECEIVE 1 2 3 4) [])
                      ReceiveReady _))
            eq_refl).
  discriminate.
Defined.

(** ** C10: determinism, and the logger *)

Lemma log_blind_ret {A : Type} (a : A) : log_blind (ret a).
Proof. intros s l1 l2. split; reflexivity. Qed.

Lemma log_blind_raise {A : Type} (e : LocalProtocolError) :
  log_blind (@raise A e).
Proof. intros s l1 l2. split; reflexivity. Qed.

Lemma log_blind_getattr {A : Type} (field : HdlcConnectionState -> A) :
  log_blind (getattr field).
Proof. intros s l1 l2. split; reflexivity. Qed.

Lemma log_blind_setattr (update : HdlcConnectionState -> HdlcConnectionState) :
  log_blind (setattr update).
Proof. intros s l1 l2. split; reflexivity. Qed.

Lemma log_blind_LOG_debug (r : LogRecord) : log_blind (LOG_debug r).
Proof. intros s l1 l2. split; reflexivity. Qed.

Lemma log_blind_bind {A B : Type} (m : M A) (k : A -> M B) :
  log_blind m -> (forall a, log_blind (k a)) -> log_blind (bind m k).
Proof.
  intros Hm Hk s l1 l2. rewrite !run_bind.
  destruct (Hm s l1 l2) as [Hr Hs].
  destruct (run m (mkWorld s l1)) as [r1 [s1 l1']].
  destruct (run m (mkWorld s l2)) as [r2 [s2 l2']].
  simpl in Hr, Hs. subst r2 s2.
  destruct r1 as [a|e]; [apply Hk | split; reflexivity].
Qed.

Lemma log_blind_when (c : bool) (body : M unit) :
  log_blind body -> log_blind (when c body).
Proof. destruct c; simpl; [trivial | intros _; apply log_blind_ret]. Qed.

Create HintDb log_blind.
#[local] Hint Resolve log_blind_ret log_blind_raise log_blind_getattr
  log_blind_setattr log_blind_LOG_debug log_blind_when : log_blind.

Ltac log_blind_step :=
  first [ apply log_blind_bind; [|intro]
        | match goal with
          | |- log_blind (match ?x with _ => _ end) => destruct x
          end
        | solve [auto with log_blind] ].

Lemma log_blind_transition_state (frame_type : FrameType) :
  log_blind (_transition_state frame_type).
Proof. unfold _transition_state. repeat log_blind_step. Qed.

Lemma log_blind_process_information_frame (f : InformationFields) :
  log_blind (_process_information_frame f).
Proof.
  unfold _process_information_frame,
    _increment_server_rsn, _increment_server_ssn,
    _increment_client_rsn, _increment_client_ssn.
  repeat log_blind_step.
Qed.

Lemma log_blind_process_frame (frame : Frame) : log_blind (process_frame frame).
Proof.
  unfold process_frame. apply log_blind_bind.
  - destruct frame; auto using log_blind_process_information_frame with log_blind.
  - intros _. apply log_blind_transition_state.
Qed.

(** C10: two calls of [process_frame] on objects with equal phase and equal
    counters, with equal frames, have the same outcome (both return, or both
    raise the same error) and leave objects with equal phase and counters,
    whatever the logger holds on either side: the log record written on a
    transition is never read back. *)
Theorem process_frame_deterministic (w1 w2 : World) (frame1 frame2 : Frame) :
  current_state (self w1) = current_state (self w2) ->
  client_ssn (self w1) = client_ssn (self w2) ->
  client_rsn (self w1) = client_rsn (self w2) ->
  server_ssn (self w1) = server_ssn (self w2) ->
  server_rsn (self w1) = server_rsn (self w2) ->
  frame1 = frame2 ->
  fst (run (process_frame frame1) w1) = fst (run (process_frame frame2) w2) /\
  self (snd (run (process_frame frame1) w1))
  = self (snd (run (process_frame frame2) w2)).
Proof.
  destruct w1 as [[p1 a1 b1 c1 d1] l1], w2 as [[p2 a2 b2 c2 d2] l2]; simpl.
  intros -> -> -> -> -> ->.
  apply log_blind_process_frame.
Qed.

(** The same response frame on the same object, once with an empty log and
    once with an old record in it. *)
Lemma process_frame_deterministic_witness :
  fst (run (process_frame (Information (mkInformation true 2 5)))
           (mkWorld (mkHdlcConnectionState AWAITING_RESPONSE 2 5 1 7) []))
  = fst (run (process_frame (Information (mkInformation true 2 5)))
             (mkWorld (mkHdlcConnectionState AWAITING_RESPONSE 2 5 1 7)
                      [Transitioned IDLE AWAITING_RESPONSE]))
  /\
  self (snd (run (process_frame (Information (mkInformation true 2 5)))
                 (mkWorld (mkHdlcConnectionState AWAITING_RESPONSE 2 5 1 7) [])))
  = self (snd (run (process_frame (Information (mkInformation true 2 5)))
                   (mkWorld (mkHdlcConnectionState AWAITING_RESPONSE 2 5 1 7)
                            [Transitioned IDLE AWAITING_RESPONSE]))).
Proof.
  apply (process_frame_deterministic
           (mkWorld (mkHdlcConnectionState AWAITING_RESPONSE 2 5 1 7) [])
           (mkWorld (mkHdlcConnectionState AWAITING_RESPONSE 2 5 1 7)
                    [Transitioned IDLE AWAITING_RESPONSE]));
    reflexivity.
Defined.

(** * Further properties of the state machine *)

(** ** Outcome of one call, in closed form *)

Lemma validated_world_current_state (w : World) (frame : Frame) :
  current_state (self (validated_world w frame)) = current_state (self w).
Proof.
  destruct frame as [| |f| | | |]; try reflexivity. simpl.
  destruct (sequence_check (self w) f), (response_frame f); reflexivity.
Qed.

Lemma validated_world_LOG (w : World) (frame : Frame) :
  LOG (validated_world w frame) = LOG w.
Proof.
  destruct frame as [| |f| | | |]; try reflexivity. simpl.
  destruct (sequence_check (self w) f), (response_frame f); reflexivity.
Qed.

(** A call is validation (which may raise, leaving the world alone) followed
    by the table transition from the validated world. *)
Lemma run_process_frame_ok (w : World) (frame : Frame) :
  sequence_ok w frame = true ->
  run (process_frame frame) w =
  run (_transition_state (type_of frame)) (validated_world w frame).
Proof.
  destruct frame as [| |f| | | |]; try reflexivity. simpl. intros Hok.
  rewrite run_process_information_frame, run_information_accepted by exact Hok.
  rewrite Hok. reflexivity.
Qed.

Lemma run_process_frame_bad (w : World) (frame : Frame) :
  sequence_ok w frame = false ->
  exists e, SequenceMismatch e /\ run (process_frame frame) w = (Raise e, w).
Proof.
  destruct frame as [| |f| | | |]; try discriminate. simpl. intros Hbad.
  destruct (run_information_rejected w f Hbad) as [e [He Hrun]].
  exists e. split; [exact He|].
  rewrite run_process_information_frame, Hrun. reflexivity.
Qed.

Lemma process_frame_returns (w : World) (frame : Frame) (new_state : State) :
  sequence_ok w frame = true ->
  lookup_transition (current_state (self w)) (type_of frame) = Some new_state ->
  run (process_frame frame) w =
  (Return tt,
   {| self := set_current_state new_state (self (validated_world w frame));
      LOG := LOG w ++ [Transitioned (current_state (self w)) new_state] |}).
Proof.
  intros Hok Hl. rewrite run_process_frame_ok by exact Hok.
  rewrite <- (validated_world_current_state w frame) in Hl.
  rewrite (run_transition_state_hit _ _ _ Hl).
  rewrite validated_world_current_state, validated_world_LOG. reflexivity.
Qed.

Lemma process_frame_returns_inv (w w' : World) (frame : Frame) :
  run (process_frame frame) w = (Return tt, w') ->
  exists new_state,
    sequence_ok w frame = true /\
    lookup_transition (current_state (self w)) (type_of frame) = Some new_state /\
    w' = {| self := set_current_state new_state (self (validated_world w frame));
            LOG := LOG w ++ [Transitioned (current_state (self w)) new_state] |}.
Proof.
  intros Hrun.
  destruct (sequence_ok w frame) eqn:Hok.
  - destruct (lookup_transition (current_state (self w)) (type_of frame))
      as [n|] eqn:Hl.
    + rewrite (process_frame_returns _ _ _ Hok Hl) in Hrun.
      injection Hrun as <-. exists n. auto.
    + rewrite run_process_frame_ok in Hrun by exact Hok.
      rewrite <- (validated_world_current_state w frame) in Hl.
      rewrite (run_transition_state_miss _ _ Hl) in Hrun. discriminate Hrun.
  - destruct (run_process_frame_bad _ _ Hok) as [e [_ He]].
    rewrite He in Hrun. discriminate Hrun.
Qed.

Lemma process_frame_raises_inv (w w' : World) (frame : Frame)
      (e : LocalProtocolError) :
  run (process_frame frame) w = (Raise e, w') ->
  current_state (self w') = current_state (self w) /\ LOG w' = LOG w.
Proof.
  intros Hrun.
  destruct (sequence_ok w frame) eqn:Hok.
  - rewrite run_process_frame_ok in Hrun by exact Hok.
    destruct (lookup_transition (current_state (self (validated_world w frame)))
                                (type_of frame)) as [n|] eqn:Hl.
    + rewrite (run_transition_state_hit _ _ _ Hl) in Hrun. discriminate Hrun.
    + rewrite (run_transition_state_miss _ _ Hl) in Hrun.
      injection Hrun as _ <-.
      split; [apply validated_world_current_state | apply validated_world_LOG].
  - destruct (run_process_frame_bad _ _ Hok) as [e' [_ He]].
    rewrite He in Hrun. injection Hrun as _ <-. auto.
Qed.

(** ** Send states and receive states *)

(** X1: a call of [process_frame] that returns moves the connection from a
    state of SEND_STATES to a state of RECEIVE_STATES, or from a state of
    RECEIVE_STATES to a state of SEND_STATES: accepted frames alternate
    between sending and receiving. *)
Theorem accepted_frame_alternates (w w' : World) (frame : Frame) :
  run (process_frame frame) w = (Return tt, w') ->
  (In (current_state (self w)) SEND_STATES /\
   In (current_state (self w')) RECEIVE_STATES)
  \/
  (In (current_state (self w)) RECEIVE_STATES /\
   In (current_state (self w')) SEND_STATES).
Proof.
  intros Hrun.
  destruct (process_frame_returns_inv _ _ _ Hrun) as [n [_ [Hl ->]]].
  simpl current_state at 2 4.
  destruct (current_state (self w)), (type_of frame);
    try discriminate Hl; injection Hl as <-;
    unfold SEND_STATES, RECEIVE_STATES; simpl; auto 10.
Qed.

(** A Disconnect frame in IDLE (a send state) leads to AWAITING_DISCONNECT
    (a receive state). *)
Lemma accepted_frame_alternates_witness :
  (In IDLE SEND_STATES /\ In AWAITING_DISCONNECT RECEIVE_STATES) \/
  (In IDLE RECEIVE_STATES /\ In AWAITING_DISCONNECT SEND_STATES).
Proof.
  exact (accepted_frame_alternates
           (mkWorld (mkHdlcConnectionState IDLE 1 2 3 4) [])
           (mkWorld (mkHdlcConnectionState AWAITING_DISCONNECT 1 2 3 4)
                    [Transitioned IDLE AWAITING_DISCONNECT])
           Disconnect eq_refl).
Defined.

(** X2: SEND_STATES and RECEIVE_STATES have no state in common, and a state
    is a key of HDLC_STATE_TRANSITIONS exactly when it is in one of the two
    lists; CLOSED and NEED_DATA are in neither. *)
Theorem send_receive_states_partition (state : State) :
  ~ (In state SEND_STATES /\ In state RECEIVE_STATES) /\
  (getitem State_beq HDLC_STATE_TRANSITIONS state <> None <->
   In state SEND_STATES \/ In state RECEIVE_STATES) /\
  (reserved state = true <->
   ~ In state SEND_STATES /\ ~ In state RECEIVE_STATES).
Proof.
  unfold SEND_STATES, RECEIVE_STATES.
  destruct state; simpl;
    (split; [|split; split]);
    try solve [ intuition discriminate
              | intuition congruence ].
Qed.

(** ** What a call does to the phase and to the log *)

(** X3: [process_frame] returns exactly when the frame gets past sequence
    validation and the table has a row for the current state and the frame's
    type.  When it returns, the new state is the one the table gives and the
    logger has received exactly one record, naming the old and the new
    state; when it raises, the state and the log are as before. *)
Theorem transition_logged_once (w : World) (frame : Frame) :
  match run (process_frame frame) w with
  | (Return _, w') =>
      lookup_transition (current_state (self w)) (type_of frame)
      = Some (current_state (self w')) /\
      LOG w' = LOG w ++ [Transitioned (current_state (self w))
                                      (current_state (self w'))]
  | (Raise _, w') =>
      current_state (self w') = current_state (self w) /\ LOG w' = LOG w
  end
  /\
  ((exists w', run (process_frame frame) w = (Return tt, w')) <->
   sequence_ok w frame = true /\
   lookup_transition (current_state (self w)) (type_of frame) <> None).
Proof.
  split.
  - destruct (run (process_frame frame) w) as [[[]|e] w'] eqn:Hrun.
    + destruct (process_frame_returns_inv _ _ _ Hrun) as [n [_ [Hl ->]]].
      simpl. split; [exact Hl | reflexivity].
    + exact (process_frame_raises_inv _ _ _ _ Hrun).
  - split.
    + intros [w' Hrun].
      destruct (process_frame_returns_inv _ _ _ Hrun) as [n [Hok [Hl _]]].
      split; [exact Hok | congruence].
    + intros [Hok Hl].
      destruct (lookup_transition (current_state (self w)) (type_of frame))
        as [n|] eqn:E; [|now destruct Hl].
      eexists. exact (process_frame_returns _ _ _ Hok E).
Qed.

(** ** Invariants of any run of calls *)

Lemma after_call_self (w : World) (frame : Frame) :
  self (after_call w frame) =
  set_current_state (current_state (self (after_call w frame)))
                    (self (validated_world w frame)).
Proof.
  unfold after_call.
  destruct (sequence_ok w frame) eqn:Hok.
  - rewrite run_process_frame_ok by exact Hok.
    destruct (lookup_transition (current_state (self (validated_world w frame)))
                                (type_of frame)) as [n|] eqn:Hl.
    + rewrite (run_transition_state_hit _ _ _ Hl). reflexivity.
    + rewrite (run_transition_state_miss _ _ Hl). simpl.
      now destruct (self (validated_world w frame)).
  - destruct (run_process_frame_bad _ _ Hok) as [e [_ ->]]. simpl.
    destruct frame as [| |f| | | |]; try discriminate Hok.
    simpl in *. rewrite Hok. now destruct (self w).
Qed.

Lemma after_call_current_state (w : World) (frame : Frame) :
  current_state (self (after_call w frame)) = current_state (self w) \/
  lookup_transition (current_state (self w)) (type_of frame)
  = Some (current_state (self (after_call w frame))).
Proof.
  unfold after_call.
  destruct (run (process_frame frame) w) as [[[]|e] w'] eqn:Hrun.
  - destruct (process_frame_returns_inv _ _ _ Hrun) as [n [_ [Hl ->]]].
    right. exact Hl.
  - left. exact (proj1 (process_frame_raises_inv _ _ _ _ Hrun)).
Qed.

Lemma lookup_transition_not_reserved (p n : State) (k : FrameType) :
  lookup_transition p k = Some n -> reserved p = false /\ reserved n = false.
Proof.
  destruct p, k; intros H; try discriminate H; injection H as <-;
    split; reflexivity.
Qed.

(** X4: on an object whose client_ssn equals its server_rsn and whose
    client_rsn equals its server_ssn (the default object, all four 0, is
    one), both equalities still hold after any run of calls of
    [process_frame], whatever the frames and whether the calls returned or
    raised: the code only ever increments the two counters of such a pair
    together. *)
Theorem crossed_counters_stay_equal (frames : list Frame) (w : World) :
  client_ssn (self w) = server_rsn (self w) ->
  client_rsn (self w) = server_ssn (self w) ->
  client_ssn (self (after_calls frames w))
  = server_rsn (self (after_calls frames w)) /\
  client_rsn (self (after_calls frames w))
  = server_ssn (self (after_calls frames w)).
Proof.
  revert w. induction frames as [|frame frames IH]; intros w H1 H2.
  - simpl. auto.
  - simpl. apply IH; rewrite after_call_self; simpl;
      (destruct frame as [| |f| | | |]; simpl; try assumption;
       destruct (sequence_check (self w) f); try assumption;
       destruct (response_frame f); simpl; congruence).
Qed.

(** From the default object: a refused request, the connection set-up, an
    accepted request and a response out of sequence. *)
Lemma crossed_counters_stay_equal_witness :
  client_ssn (self (after_calls
                      [ Information (mkInformation false 0 0);
                        UnNumberedAcknowledgment;
                        Information (mkInformation true 0 1);
                        Information (mkInformation true 5 5) ]
                      (mkWorld default_state [])))
  = server_rsn (self (after_calls
                        [ Information (mkInformation false 0 0);
                          UnNumberedAcknowledgment;
                          Information (mkInformation true 0 1);
                          Information (mkInformation true 5 5) ]
                        (mkWorld default_state [])))
  /\
  client_rsn (self (after_calls
                      [ Information (mkInformation false 0 0);
                        UnNumberedAcknowledgment;
                        Information (mkInformation true 0 1);
                        Information (mkInformation true 5 5) ]
                      (mkWorld default_state [])))
  = server_ssn (self (after_calls
                        [ Information (mkInformation false 0 0);
                          UnNumberedAcknowledgment;
                          Information (mkInformation true 0 1);
                          Information (mkInformation true 5 5) ]
                        (mkWorld default_state []))).
Proof.
  apply (crossed_counters_stay_equal
           [ Information (mkInformation false 0 0);
             UnNumberedAcknowledgment;
             Information (mkInformation true 0 1);
             Information (mkInformation true 5 5) ]
           (mkWorld default_state [])); reflexivity.
Defined.

(** X5: from a state other than CLOSED and NEED_DATA, no run of calls of
    [process_frame] ever puts the connection in CLOSED or in NEED_DATA. *)
Theorem reserved_states_unreachable (frames : list Frame) (w : World) :
  reserved (current_state (self w)) = false ->
  reserved (current_state (self (after_calls frames w))) = false.
Proof.
  revert w. induction frames as [|frame frames IH]; intros w H.
  - exact H.
  - simpl. apply IH.
    destruct (after_call_current_state w frame) as [-> | Hl]; [exact H|].
    exact (proj2 (lookup_transition_not_reserved _ _ _ Hl)).
Qed.

(** The default object after the set-up, a request and a disconnect out
    of place. *)
Lemma reserved_states_unreachable_witness :
  reserved (current_state
              (self (after_calls
                       [ SetNormalResponseMode; UnNumberedAcknowledgment;
                         Information (mkInformation false 0 0); Disconnect ]
                       (mkWorld default_state [])))) = false.
Proof.
  apply (reserved_states_unreachable
           [ SetNormalResponseMode; UnNumberedAcknowledgment;
             Information (mkInformation false 0 0); Disconnect ]
           (mkWorld default_state [])).
  reflexivity.
Defined.

(** X6: an object in CLOSED or NEED_DATA stays there: after any run of
    calls the state and the log are as at the start, and the next call of
    [process_frame] raises, whatever the frame. *)
Theorem reserved_states_are_final (frames : list Frame) (w : World) :
  reserved (current_state (self w)) = true ->
  current_state (self (after_calls frames w)) = current_state (self w) /\
  LOG (after_calls frames w) = LOG w /\
  forall frame,
    exists e w',
      run (process_frame frame) (after_calls frames w) = (Raise e, w').
Proof.
  assert (Hraise : forall w0 frame,
             reserved (current_state (self w0)) = true ->
             exists e w', run (process_frame frame) w0 = (Raise e, w')).
  { intros w0 frame Hres.
    destruct (run (process_frame frame) w0) as [[[]|e] w'] eqn:Hrun; [|eauto].
    destruct (process_frame_returns_inv _ _ _ Hrun) as [n [_ [Hl _]]].
    apply lookup_transition_not_reserved in Hl. destruct Hl; congruence. }
  revert w. induction frames as [|frame frames IH]; intros w Hres.
  - simpl. auto.
  - simpl.
    destruct (Hraise w frame Hres) as [e [w' Hrun]].
    destruct (process_frame_raises_inv _ _ _ _ Hrun) as [Hp Hlog].
    assert (Hw' : after_call w frame = w') by (unfold after_call; now rewrite Hrun).
    rewrite Hw'.
    destruct (IH w') as [IH1 [IH2 IH3]]; [congruence|].
    repeat split; [congruence | congruence | exact IH3].
Qed.

(** A CLOSED object: an Information frame in sequence still moves two
    counters, but neither the state nor the log. *)
Lemma reserved_states_are_final_witness :
  current_state
    (self (after_calls [ Information (mkInformation true 1 2); ReceiveReady ]
                       (mkWorld (mkHdlcConnectionState CLOSED 1 2 3 4) [])))
  = CLOSED
  /\
  LOG (after_calls [ Information (mkInformation true 1 2); ReceiveReady ]
                   (mkWorld (mkHdlcConnectionState CLOSED 1 2 3 4) []))
  = [].
Proof.
  destruct (reserved_states_are_final
              [ Information (mkInformation true 1 2); ReceiveReady ]
              (mkWorld (mkHdlcConnectionState CLOSED 1 2 3 4) [])
              eq_refl) as [H1 [H2 _]].
  split; [exact H1 | exact H2].
Defined.

(** ** Runs that return *)

Lemma run_process_frames_cons (frame : Frame) (frames : list Frame) (w : World) :
  run (process_frames (frame :: frames)) w =
  match run (process_frame frame) w with
  | (Return _, w') => run (process_frames frames) w'
  | (Raise e, w') => (Raise e, w')
  end.
Proof. reflexivity. Qed.

Lemma run_process_frames_app (frames1 frames2 : list Frame) (w : World) :
  run (process_frames (frames1 ++ frames2)) w =
  match run (process_frames frames1) w with
  | (Return _, w') => run (process_frames frames2) w'
  | (Raise e, w') => (Raise e, w')
  end.
Proof.
  revert w. induction frames1 as [|frame frames1 IH]; intros w.
  - reflexivity.
  - simpl app. rewrite !run_process_frames_cons.
    destruct (run (process_frame frame) w) as [[[]|e] w']; [apply IH | reflexivity].
Qed.

Lemma sequence_check_refl_response (s : HdlcConnectionState) :
  sequence_check s (mkInformation true (client_ssn s) (client_rsn s)) = true.
Proof. unfold sequence_check. simpl. now rewrite !Z.eqb_refl. Qed.

Lemma sequence_check_refl_request (s : HdlcConnectionState) :
  sequence_check s (mkInformation false (server_ssn s) (server_rsn s)) = true.
Proof. unfold sequence_check. simpl. now rewrite !Z.eqb_refl. Qed.

(** X7: no state with a row in the table is a dead end: from every state
    other than CLOSED and NEED_DATA, whatever the counters, there are at
    most four frames that [process_frame] accepts one after the other and
    that bring the connection to NOT_CONNECTED. *)
Theorem not_connected_reachable (w : World) :
  reserved (current_state (self w)) = false ->
  exists frames w',
    (length frames <= 4)%nat /\
    run (process_frames frames) w = (Return tt, w') /\
    current_state (self w') = NOT_CONNECTED.
Proof.
  assert (Hresp : forall a b c d l,
             exists w',
               run (process_frames [Information (mkInformation true a b);
                                    Disconnect; UnNumberedAcknowledgment])
                   (mkWorld (mkHdlcConnectionState AWAITING_RESPONSE a b c d) l)
               = (Return tt, w') /\
               current_state (self w') = NOT_CONNECTED).
  { intros a b c d l. eexists.
    rewrite run_process_frames_cons.
    rewrite (process_frame_returns _ _ IDLE)
      by (try apply sequence_check_refl_response; reflexivity).
    simpl validated_world.
    rewrite (sequence_check_refl_response (mkHdlcConnectionState _ a b c d)).
    split; reflexivity. }
  destruct w as [[p a b c d] l]. simpl. intros Hres.
  destruct p; try discriminate Hres.
  - exists []. eexists. repeat split. simpl; lia.
  - exists [Disconnect; UnNumberedAcknowledgment]. eexists.
    repeat split. simpl; lia.
  - destruct (Hresp a b c d l) as [w' [Hrun Hp]].
    exists [Information (mkInformation true a b);
            Disconnect; UnNumberedAcknowledgment], w'.
    split; [simpl; lia | split; assumption].
  - exists [UnNumberedAcknowledgment; Disconnect; UnNumberedAcknowledgment].
    eexists. repeat split. simpl; lia.
  - destruct (Hresp a b c d
                (l ++ [Transitioned SHOULD_SEND_READY_TO_RECEIVE AWAITING_RESPONSE]))
      as [w' [Hrun Hp]].
    exists [ReceiveReady; Information (mkInformation true a b);
            Disconnect; UnNumberedAcknowledgment], w'.
    split; [simpl; lia | split; [exact Hrun | exact Hp]].
  - exists [UnNumberedAcknowledgment]. eexists. repeat split. simpl; lia.
Qed.

(** From SHOULD_SEND_READY_TO_RECEIVE the way back takes four frames. *)
Lemma not_connected_reachable_witness :
  exists frames w',
    (length frames <= 4)%nat /\
    run (process_frames frames)
        (mkWorld (mkHdlcConnectionState SHOULD_SEND_READY_TO_RECEIVE 6 7 0 1) [])
    = (Return tt, w') /\
    current_state (self w') = NOT_CONNECTED.
Proof.
  apply (not_connected_reachable
           (mkWorld (mkHdlcConnectionState SHOULD_SEND_READY_TO_RECEIVE 6 7 0 1) [])).
  reflexivity.
Defined.

(** ** Sequence errors *)

Lemma run_information_error (w : World) (f : InformationFields) :
  sequence_check (self w) f = false ->
  run (_process_information_frame f) w = (Raise (sequence_error (self w) f), w).
Proof.
  destruct w as [[p a b c d] l], f as [rf s r].
  unfold sequence_check, sequence_error, expected_ssn, expected_rsn; simpl.
  intros H.
  destruct rf;
    [ destruct (s =? a) eqn:Hs, (r =? b) eqn:Hr
    | destruct (s =? c) eqn:Hs, (r =? d) eqn:Hr ];
    try discriminate H;
    do 2 (unfold_py; rewrite ?Hs, ?Hr; cbv [negb]); reflexivity.
Qed.

Lemma eqb_incremented (n : Z) : (n =? incremented n) = false.
Proof. apply Z.eqb_neq. intros H. symmetry in H. now apply incremented_neq in H. Qed.

(** X8: what [process_frame] does with an Information frame is decided by
    the two comparisons alone, send numbers first.  When the send numbers
    differ, the send-sequence error is raised, whatever the receive numbers
    and the state, carrying the frame's number and the counter it was
    compared with, and the object is unchanged.  When the send numbers agree
    and the receive numbers differ, the receive-sequence error is raised in
    the same way.  When both agree, no sequence error is raised: the call
    returns, or, when the table has no Information row for the current
    state, it raises the can't-handle error.  The counters compared are
    client_ssn and client_rsn for a response frame, server_ssn and
    server_rsn otherwise. *)
Theorem sequence_error_reported (w : World) (f : InformationFields) :
  (send_sequence_number f <> expected_ssn (self w) f ->
   run (process_frame (Information f)) w =
   (Raise (SendSequenceNumberError (send_sequence_number f)
                                   (expected_ssn (self w) f)), w))
  /\
  (send_sequence_number f = expected_ssn (self w) f ->
   receive_sequence_number f <> expected_rsn (self w) f ->
   run (process_frame (Information f)) w =
   (Raise (ReceiveSequenceNumberError (receive_sequence_number f)
                                      (expected_rsn (self w) f)), w))
  /\
  (send_sequence_number f = expected_ssn (self w) f ->
   receive_sequence_number f = expected_rsn (self w) f ->
   forall e w',
     run (process_frame (Information f)) w = (Raise e, w') ->
     e = CantHandleFrameType InformationFrame (current_state (self w)) /\
     lookup_transition (current_state (self w)) InformationFrame = None)
  /\
  (expected_ssn (self w) f
   = (if response_frame f then client_ssn (self w) else server_ssn (self w)) /\
   expected_rsn (self w) f
   = (if response_frame f then client_rsn (self w) else server_rsn (self w))).
Proof.
  split; [|split; [|split]].
  - intros Hs. apply Z.eqb_neq in Hs.
    rewrite run_process_information_frame, run_information_error.
    + unfold sequence_error. now rewrite Hs.
    + unfold sequence_check, expected_ssn in *.
      destruct (response_frame f); now rewrite Hs.
  - intros Hs Hr. apply Z.eqb_eq in Hs. apply Z.eqb_neq in Hr.
    rewrite run_process_information_frame, run_information_error.
    + unfold sequence_error. now rewrite Hs.
    + unfold sequence_check, expected_ssn, expected_rsn in *.
      destruct (response_frame f); now rewrite Hs, Hr.
  - intros Hs Hr e w' Hrun. apply Z.eqb_eq in Hs, Hr.
    assert (Hok : sequence_check (self w) f = true).
    { unfold sequence_check, expected_ssn, expected_rsn in *.
      destruct (response_frame f); now rewrite Hs, Hr. }
    rewrite run_process_information_frame, run_information_accepted in Hrun
      by exact Hok.
    destruct (lookup_transition (current_state (self w)) InformationFrame)
      as [n|] eqn:El.
    + destruct (response_frame f);
        [ rewrite (run_transition_state_hit (after_response w) _ _ El) in Hrun
        | rewrite (run_transition_state_hit (after_request w) _ _ El) in Hrun ];
        discriminate Hrun.
    + destruct (response_frame f);
        [ rewrite (run_transition_state_miss (after_response w) _ El) in Hrun
        | rewrite (run_transition_state_miss (after_request w) _ El) in Hrun ];
        injection Hrun as <- _; split; reflexivity.
  - split; reflexivity.
Qed.

(** Both numbers of a request frame are wrong: the send number is the one
    reported.  A response frame in sequence on a CLOSED object is refused
    with the can't-handle error, not with a sequence error. *)
Lemma sequence_error_reported_witness :
  run (process_frame (Information (mkInformation false 5 6)))
      (mkWorld (mkHdlcConnectionState IDLE 1 2 3 4) [])
  = (Raise (SendSequenceNumberError 5 3),
     mkWorld (mkHdlcConnectionState IDLE 1 2 3 4) [])
  /\
  (CantHandleFrameType InformationFrame CLOSED
   = CantHandleFrameType InformationFrame CLOSED /\
   lookup_transition CLOSED InformationFrame = None).
Proof.
  split.
  - apply (proj1 (sequence_error_reported
                    (mkWorld (mkHdlcConnectionState IDLE 1 2 3 4) [])
                    (mkInformation false 5 6))).
    discriminate.
  - exact (proj1 (proj2 (proj2 (sequence_error_reported
                    (mkWorld (mkHdlcConnectionState CLOSED 1 2 3 4) [])
                    (mkInformation true 1 2))))
             eq_refl eq_refl
             (CantHandleFrameType InformationFrame CLOSED)
             (mkWorld (mkHdlcConnectionState CLOSED 2 2 3 5) [])
             eq_refl).
Defined.

(** ** Sequences of frames *)

(** X9: one request and its response.  In IDLE, a request frame carrying
    server_ssn and server_rsn followed by a response frame carrying
    client_ssn and the client_rsn the request has just incremented is
    accepted: the connection is back in IDLE, each of the four counters has
    been incremented once, and the log has the two transitions.  A response
    frame that carries client_rsn as it was before the request is refused
    with the receive-sequence error. *)
Theorem request_response_exchange (a b c d : Z) (l : list LogRecord) :
  run (process_frames [ Information (mkInformation false c d);
                        Information (mkInformation true a (incremented b)) ])
      (mkWorld (mkHdlcConnectionState IDLE a b c d) l)
  = (Return tt,
     mkWorld (mkHdlcConnectionState IDLE (incremented a) (incremented b)
                                    (incremented c) (incremented d))
             (l ++ [ Transitioned IDLE AWAITING_RESPONSE;
                     Transitioned AWAITING_RESPONSE IDLE ]))
  /\
  run (process_frames [ Information (mkInformation false c d);
                        Information (mkInformation true a b) ])
      (mkWorld (mkHdlcConnectionState IDLE a b c d) l)
  = (Raise (ReceiveSequenceNumberError b (incremented b)),
     mkWorld (mkHdlcConnectionState AWAITING_RESPONSE a (incremented b)
                                    (incremented c) d)
             (l ++ [ Transitioned IDLE AWAITING_RESPONSE ])).
Proof.
  assert (Hc1 : sequence_check (mkHdlcConnectionState IDLE a b c d)
                               (mkInformation false c d) = true)
    by apply (sequence_check_refl_request (mkHdlcConnectionState IDLE a b c d)).
  assert (Hc2 : sequence_check
                  (mkHdlcConnectionState AWAITING_RESPONSE a
                     (incremented b) (incremented c) d)
                  (mkInformation true a (incremented b)) = true)
    by apply (sequence_check_refl_response
                (mkHdlcConnectionState AWAITING_RESPONSE a
                   (incremented b) (incremented c) d)).
  assert (Hreq : run (process_frame (Information (mkInformation false c d)))
                     (mkWorld (mkHdlcConnectionState IDLE a b c d) l)
                 = (Return tt,
                    mkWorld (mkHdlcConnectionState AWAITING_RESPONSE a
                               (incremented b) (incremented c) d)
                            (l ++ [ Transitioned IDLE AWAITING_RESPONSE ]))).
  { rewrite (process_frame_returns _ _ AWAITING_RESPONSE)
      by (try exact Hc1; reflexivity).
    simpl validated_world. rewrite Hc1. reflexivity. }
  split; rewrite run_process_frames_cons, Hreq, run_process_frames_cons.
  - rewrite (process_frame_returns _ _ IDLE) by (try exact Hc2; reflexivity).
    simpl validated_world. rewrite Hc2.
    simpl. rewrite <- app_assoc. reflexivity.
  - rewrite run_process_information_frame, run_information_error.
    + unfold sequence_error, expected_ssn, expected_rsn. simpl.
      now rewrite Z.eqb_refl.
    + unfold sequence_check. simpl.
      now rewrite Z.eqb_refl, eqb_incremented.
Qed.

(** X10: tearing the connection down and setting it up again does not
    reset the sequence numbers: from IDLE, the frames Disconnect,
    UnNumberedAcknowledgment, SetNormalResponseMode,
    UnNumberedAcknowledgment are accepted and lead back to IDLE with the
    four counters exactly as they were. *)
Theorem reconnect_keeps_counters (a b c d : Z) (l : list LogRecord) :
  run (process_frames [ Disconnect; UnNumberedAcknowledgment;
                        SetNormalResponseMode; UnNumberedAcknowledgment ])
      (mkWorld (mkHdlcConnectionState IDLE a b c d) l)
  = (Return tt,
     mkWorld (mkHdlcConnectionState IDLE a b c d)
             (l ++ [ Transitioned IDLE AWAITING_DISCONNECT;
                     Transitioned AWAITING_DISCONNECT NOT_CONNECTED;
                     Transitioned NOT_CONNECTED AWAITING_CONNECTION;
                     Transitioned AWAITING_CONNECTION IDLE ])).
Proof.
  cbv -[app]. rewrite <- !app_assoc. reflexivity.
Qed.

(** X11: the segmented sub-cycle can be repeated any number of times: from
    AWAITING_RESPONSE, [n] times the pair SegmentedInformationResponse,
    ReceiveReady is accepted and leaves the connection in AWAITING_RESPONSE
    with the four counters untouched, whatever their values; the log
    receives the two transitions [n] times. *)
Theorem segmented_cycle_repeats (n : nat) (a b c d : Z) (l : list LogRecord) :
  run (process_frames
         (repeat_frames n [SegmentedInformationResponse; ReceiveReady]))
      (mkWorld (mkHdlcConnectionState AWAITING_RESPONSE a b c d) l)
  = (Return tt,
     mkWorld (mkHdlcConnectionState AWAITING_RESPONSE a b c d)
             (l ++ concat
                     (repeat [ Transitioned AWAITING_RESPONSE
                                            SHOULD_SEND_READY_TO_RECEIVE;
                               Transitioned SHOULD_SEND_READY_TO_RECEIVE
                                            AWAITING_RESPONSE ] n))).
Proof.
  revert l. induction n as [|n IH]; intros l.
  - simpl. now rewrite app_nil_r.
  - cbn [repeat_frames repeat concat].
    rewrite run_process_frames_app.
    change (run (process_frames [SegmentedInformationResponse; ReceiveReady])
                (mkWorld (mkHdlcConnectionState AWAITING_RESPONSE a b c d) l))
      with (@Return unit tt,
            mkWorld (mkHdlcConnectionState AWAITING_RESPONSE a b c d)
                    ((l ++ [Transitioned AWAITING_RESPONSE
                                         SHOULD_SEND_READY_TO_RECEIVE])
                       ++ [Transitioned SHOULD_SEND_READY_TO_RECEIVE
                                        AWAITING_RESPONSE])).
    cbv beta iota. rewrite IH. rewrite <- !app_assoc. reflexivity.
Qed.

(** ** Duplicates *)

Lemma lookup_transition_not_twice (p n : State) (k : FrameType) :
  k <> InformationFrame ->
  lookup_transition p k = Some n -> lookup_transition n k = None.
Proof.
  destruct p, k; intros Hk H; try discriminate H; try (now destruct Hk);
    injection H as <-; reflexivity.
Qed.

(** X12: a frame that [process_frame] has just accepted is refused when it
    is presented again, and the refusal changes nothing.  A frame that is
    not an Information frame is refused because the state it led to has no
    row for its type; an Information frame is refused with the send-sequence
    error, because the counter its send number matched has been
    incremented. *)
Theorem accepted_frame_refused_again (w w' : World) (frame : Frame) :
  run (process_frame frame) w = (Return tt, w') ->
  exists e,
    run (process_frame frame) w' = (Raise e, w') /\
    match frame with
    | Information f =>
        e = SendSequenceNumberError
              (send_sequence_number f)
              (incremented (send_sequence_number f))
    | _ => e = CantHandleFrameType (type_of frame) (current_state (self w'))
    end.
Proof.
  intros Hrun.
  destruct (process_frame_returns_inv _ _ _ Hrun) as [n [Hok [Hl ->]]].
  destruct frame as [| |f| | | |];
    try (eexists; split; [|reflexivity];
         rewrite run_process_other_frame by discriminate;
         apply run_transition_state_miss;
         simpl; eapply lookup_transition_not_twice; [|exact Hl]; discriminate).
  simpl in Hok. simpl validated_world. rewrite Hok.
  destruct w as [[p a b c d] l], f as [rf s r].
  unfold sequence_check in Hok. simpl in Hok.
  eexists. split; [|reflexivity].
  rewrite run_process_information_frame.
  destruct rf; apply andb_true_iff in Hok as [Hs Hr];
    apply Z.eqb_eq in Hs, Hr; subst s r;
    rewrite run_information_error;
    unfold sequence_error, sequence_check, expected_ssn; simpl;
    rewrite ?eqb_incremented; reflexivity.
Qed.

(** The request frame numbered (3, 4), accepted in IDLE against server
    numbers (3, 4), and presented a second time. *)
Lemma accepted_frame_refused_again_witness :
  exists e,
    run (process_frame (Information (mkInformation false 3 4)))
        (mkWorld (mkHdlcConnectionState AWAITING_RESPONSE 1 3 4 4)
                 [Transitioned IDLE AWAITING_RESPONSE])
    = (Raise e,
       mkWorld (mkHdlcConnectionState AWAITING_RESPONSE 1 3 4 4)
               [Transitioned IDLE AWAITING_RESPONSE]) /\
    e = SendSequenceNumberError 3 (incremented 3).
Proof.
  exact (accepted_frame_refused_again
           (mkWorld (mkHdlcConnectionState IDLE 1 2 3 4) [])
           (mkWorld (mkHdlcConnectionState AWAITING_RESPONSE 1 3 4 4)
                    [Transitioned IDLE AWAITING_RESPONSE])
           (Information (mkInformation false 3 4)) eq_refl).
Defined.

(** ** The range of the counters over a run *)

Lemma validated_world_in_range (w : World) (frame : Frame) :
  counters_in_range (self w) ->
  counters_in_range (self (validated_world w frame)).
Proof.
  intros Hin. destruct frame as [| |f| | | |]; try exact Hin. simpl.
  destruct (sequence_check (self w) f); [|exact Hin].
  destruct Hin as [H1 [H2 [H3 H4]]].
  destruct (response_frame f); unfold counters_in_range; simpl;
    auto using incremented_range.
Qed.

(** X13: on an object whose four counters are within 0..7 (the default
    object is one), they are within 0..7 after any run of calls of
    [process_frame], whatever the frames, whether the calls returned or
    raised, and also when the caller goes on after an exception. *)
Theorem counters_in_range_over_calls (frames : list Frame) (w : World) :
  counters_in_range (self w) ->
  counters_in_range (self (after_calls frames w)).
Proof.
  revert w. induction frames as [|frame frames IH]; intros w Hin.
  - exact Hin.
  - simpl. apply IH. rewrite after_call_self.
    exact (validated_world_in_range w frame Hin).
Qed.

(** All four counters at 7 in IDLE: a request and a response that wrap
    them, a frame out of place and a response out of sequence. *)
Lemma counters_in_range_over_calls_witness :
  counters_in_range
    (self (after_calls
             [ Information (mkInformation false 7 7);
               Information (mkInformation true 7 0);
               Disconnect;
               Information (mkInformation true 0 0) ]
             (mkWorld (mkHdlcConnectionState IDLE 7 7 7 7) []))).
Proof.
  apply (counters_in_range_over_calls
           [ Information (mkInformation false 7 7);
             Information (mkInformation true 7 0);
             Disconnect;
             Information (mkInformation true 0 0) ]
           (mkWorld (mkHdlcConnectionState IDLE 7 7 7 7) [])).
  unfold counters_in_range. simpl. lia.
Defined.
